(** * labthings-sangaboard: the [SangaboardThing] stage controller

    A shallow embedding of [src/labthings_sangaboard/__init__.py].

    The Python class wraps one [sangaboard.Sangaboard] driver object behind a
    [threading.RLock], caches the stage position in the [position] property
    and exposes [move_relative], [move_absolute] and [abort_move].

    - Python dicts are association lists in insertion order ([dict]).
    - The driver library is external: it is a record of functions over an
      abstract driver-object type [D]; every call may return or raise.
    - Methods are computations in a small monad that threads the attributes
      of [self], may raise a Python exception, may block on the lock, and
      records every lock operation and every driver call in a trace.
    - The host framework is external too: the [thing_action] and
      [thing_property] decorators and the change notifications of the two
      property descriptors are left out; a property is an attribute. *)

From Stdlib Require Import ZArith List String Ascii Bool Arith Lia.
From Stdlib Require Import Strings.Byte.
Import ListNotations.

Local Open Scope string_scope.
Local Open Scope list_scope.
Local Open Scope Z_scope.

(* ===================================================================== *)
(** ** Python values the module handles *)
(* ===================================================================== *)

(** A [dict] with [str] keys, in insertion order. *)
Definition dict (V : Type) := list (string * V).

Fixpoint dict_get {V : Type} (k : string) (d : dict V) : option V :=
  match d with
  | [] => None
  | (k', v) :: d' => if String.eqb k k' then Some v else dict_get k d'
  end.

(** [d[k] = v]: an existing key keeps its place, a new key goes last. *)
Fixpoint dict_set {V : Type} (k : string) (v : V) (d : dict V) : dict V :=
  match d with
  | [] => [(k, v)]
  | (k', v') :: d' =>
      if String.eqb k k' then (k, v) :: d' else (k', v') :: dict_set k v d'
  end.

(** Iterating a dict yields its keys. *)
Definition dict_keys {V : Type} (d : dict V) : list string := map fst d.

(** [d.get(k, dflt)] *)
Definition dict_get_default {V : Type} (k : string) (dflt : V) (d : dict V) : V :=
  match dict_get k d with
  | Some v => v
  | None => dflt
  end.

(** [{k: v for (k, v) in pairs}] *)
Definition dict_of_pairs {V : Type} (pairs : list (string * V)) : dict V :=
  fold_left (fun d kv => dict_set (fst kv) (snd kv) d) pairs [].

(** [zip(xs, ys)] stops at the shorter argument. *)
Definition zip {A B : Type} (xs : list A) (ys : list B) : list (A * B) :=
  combine xs ys.

(** Values of the constructor's keyword arguments ([port: str = None]). *)
Inductive pyval :=
| PyNone
| PyStr (s : string)
| PyInt (z : Z).

(** The exceptions that can leave a method of the class. *)
Inductive exn :=
| AttributeError (attr : string)
| ValueError (msg : string)
| KeyError (key : string)
| TypeError (msg : string)
| RuntimeError (msg : string)
| HTTPException (status_code : Z) (detail : string)
| DriverError (msg : string).

(** What a call into the driver library does: return or raise. *)
Inductive answer (A : Type) :=
| Returns (a : A)
| Raises (e : exn).
Arguments Returns {A} a.
Arguments Raises {A} e.

(** [str.encode()]; characters are the bytes of the string. *)
Definition encode (s : string) : list byte := list_byte_of_string s.

(** Unpacking a [str] into the two targets [k, v]: the string is iterated
    character by character and must have exactly two of them. *)
Definition unpack2 (s : string) : answer (string * string) :=
  match s with
  | EmptyString =>
      Raises (ValueError "not enough values to unpack (expected 2, got 0)")
  | String _ EmptyString =>
      Raises (ValueError "not enough values to unpack (expected 2, got 1)")
  | String a (String b EmptyString) =>
      Returns (String a EmptyString, String b EmptyString)
  | String _ (String _ (String _ _)) =>
      Raises (ValueError "too many values to unpack (expected 2)")
  end.

(** [v - p] for a [str] [v] and an [int] [p]: [str] has no [__sub__] and
    [int] has no [__rsub__] for it. *)
Definition str_sub_int (v : string) (p : Z) : answer Z :=
  Raises (TypeError "unsupported operand type(s) for -: 'str' and 'int'").

(* ===================================================================== *)
(** ** Threads, the reentrant lock and the trace *)
(* ===================================================================== *)

Definition tid := nat.

(** [threading.RLock]: free, or held by [owner] at recursion level
    [S depth]. *)
Inductive RLock :=
| Unlocked
| Locked (owner : tid) (depth : nat).

(** Whether thread [t] gets the lock without waiting. *)
Definition lock_free_for (t : tid) (l : RLock) : bool :=
  match l with
  | Unlocked => true
  | Locked o _ => Nat.eqb o t
  end.

Inductive event :=
| EvAcquire (t : tid)
| EvRelease (t : tid)
| EvOpen (kwargs : dict pyval)
| EvReadPosition
| EvMoveRel (displacement : list Z)
| EvClose
| EvSerWrite (data : list byte)
| EvWarning (msg : string).

(** The driver calls of a trace, in order. *)
Definition is_position_read (e : event) : bool :=
  match e with EvReadPosition => true | _ => false end.

Definition is_move (e : event) : bool :=
  match e with EvMoveRel _ => true | _ => false end.

Definition is_ser_write (e : event) : bool :=
  match e with EvSerWrite _ => true | _ => false end.

Definition is_lock_event (e : event) : bool :=
  match e with EvAcquire _ | EvRelease _ => true | _ => false end.

Definition is_hardware (e : event) : bool :=
  match e with
  | EvOpen _ | EvReadPosition | EvMoveRel _ | EvClose | EvSerWrite _ => true
  | _ => false
  end.

Definition position_reads (tr : list event) : nat :=
  List.length (filter is_position_read tr).

Definition moves (tr : list event) : list event := filter is_move tr.

Definition ser_writes (tr : list event) : list event := filter is_ser_write tr.

Definition lock_events (tr : list event) : list event := filter is_lock_event tr.

Definition hardware (tr : list event) : list event := filter is_hardware tr.

(** [_axis_names = ("x", "y", "z")] *)
Definition _axis_names : list string := ["x"; "y"; "z"].

(* ===================================================================== *)
(** ** The driver library and the class *)
(* ===================================================================== *)

(** The part of [sangaboard.Sangaboard] the class uses. [D] is the driver
    object; each method returns the object after the call. *)
Record Driver (D : Type) := {
  Sangaboard : dict pyval -> answer D;
  sb_position : D -> answer (list Z) * D;
  sb_move_rel : list Z -> D -> answer unit * D;
  sb_close : D -> answer unit * D;
  sb_termination_character : D -> string;
  sb_ser_write : list byte -> D -> answer unit * D
}.
Arguments Sangaboard {D} _ _.
Arguments sb_position {D} _ _.
Arguments sb_move_rel {D} _ _ _.
Arguments sb_close {D} _ _.
Arguments sb_termination_character {D} _ _.
Arguments sb_ser_write {D} _ _ _.

(** The attributes of a [SangaboardThing] instance. [None] is an attribute
    that has not been assigned yet. *)
Record SangaboardThing (D : Type) := {
  sangaboard_kwargs : dict pyval;
  _sangaboard : option D;
  _sangaboard_lock : option RLock;
  position : dict Z;
  moving : bool
}.
Arguments sangaboard_kwargs {D} _.
Arguments _sangaboard {D} _.
Arguments _sangaboard_lock {D} _.
Arguments position {D} _.
Arguments moving {D} _.

(** How a method call ends: it returns, raises, or waits for the lock. *)
Inductive outcome (A : Type) :=
| Ok (a : A)
| Raise (e : exn)
| Blocked.
Arguments Ok {A} a.
Arguments Raise {A} e.
Arguments Blocked {A}.

Declare Scope py_scope.
Delimit Scope py_scope with py.

Section Thing.


Variable D : Type.
Variable drv : Driver D.

Local Abbreviation self := (SangaboardThing D).

Definition M (A : Type) : Type := self -> outcome A * self * list event.

Definition ret {A : Type} (a : A) : M A := fun s => (Ok a, s, []).

Definition bind {A B : Type} (m : M A) (f : A -> M B) : M B :=
  fun s =>
    let '(r, s1, tr1) := m s in
    match r with
    | Ok a => let '(r2, s2, tr2) := f a s1 in (r2, s2, tr1 ++ tr2)
    | Raise e => (Raise e, s1, tr1)
    | Blocked => (Blocked, s1, tr1)
    end.

Definition raise {A : Type} (e : exn) : M A := fun s => (Raise e, s, []).

Definition emit (e : event) : M unit := fun s => (Ok tt, s, [e]).

Definition lift {A : Type} (a : answer A) : M A :=
  match a with
  | Returns x => ret x
  | Raises e => raise e
  end.

(** [try: body finally: cleanup]: the cleanup runs whether the body returns
    or raises; a body that waits never reaches it. *)
Definition finally {A : Type} (body : M A) (cleanup : M unit) : M A :=
  fun s =>
    let '(r, s1, tr1) := body s in
    match r with
    | Blocked => (Blocked, s1, tr1)
    | _ =>
        let '(rc, s2, tr2) := cleanup s1 in
        match rc with
        | Ok _ => (r, s2, tr1 ++ tr2)
        | Raise e => (Raise e, s2, tr1 ++ tr2)
        | Blocked => (Blocked, s2, tr1 ++ tr2)
        end
    end.

Definition blocked {A : Type} : M A := fun s => (Blocked, s, []).

Notation "x <- m ;; k" := (bind m (fun x => k))
  (at level 61, m at next level, right associativity) : py_scope.
Notation "m ;; k" := (bind m (fun _ => k))
  (at level 61, right associativity) : py_scope.
Local Open Scope py_scope.

(** *** Attributes of [self] *)

Definition get_sangaboard : M D :=
  fun s =>
    match _sangaboard s with
    | Some sb => (Ok sb, s, [])
    | None => (Raise (AttributeError "_sangaboard"), s, [])
    end.

Definition get_sangaboard_lock : M RLock :=
  fun s =>
    match _sangaboard_lock s with
    | Some l => (Ok l, s, [])
    | None => (Raise (AttributeError "_sangaboard_lock"), s, [])
    end.

Definition get_sangaboard_kwargs : M (dict pyval) :=
  fun s => (Ok (sangaboard_kwargs s), s, []).

Definition get_position : M (dict Z) := fun s => (Ok (position s), s, []).

Definition get_moving : M bool := fun s => (Ok (moving s), s, []).

Definition set_sangaboard (sb : D) : M unit :=
  fun s =>
    (Ok tt,
     {| sangaboard_kwargs := sangaboard_kwargs s;
        _sangaboard := Some sb;
        _sangaboard_lock := _sangaboard_lock s;
        position := position s;
        moving := moving s |},
     []).

Definition set_sangaboard_lock (l : RLock) : M unit :=
  fun s =>
    (Ok tt,
     {| sangaboard_kwargs := sangaboard_kwargs s;
        _sangaboard := _sangaboard s;
        _sangaboard_lock := Some l;
        position := position s;
        moving := moving s |},
     []).

Definition set_position (p : dict Z) : M unit :=
  fun s =>
    (Ok tt,
     {| sangaboard_kwargs := sangaboard_kwargs s;
        _sangaboard := _sangaboard s;
        _sangaboard_lock := _sangaboard_lock s;
        position := p;
        moving := moving s |},
     []).

Definition set_moving (b : bool) : M unit :=
  fun s =>
    (Ok tt,
     {| sangaboard_kwargs := sangaboard_kwargs s;
        _sangaboard := _sangaboard s;
        _sangaboard_lock := _sangaboard_lock s;
        position := position s;
        moving := b |},
     []).

(** [d[k]] *)
Definition getitem (d : dict Z) (k : string) : M Z :=
  match dict_get k d with
  | Some v => ret v
  | None => raise (KeyError k)
  end.

(** *** The lock *)

Definition acquire (t : tid) : M unit :=
  l <- get_sangaboard_lock ;;
  match l with
  | Unlocked => set_sangaboard_lock (Locked t 0) ;; emit (EvAcquire t)
  | Locked o n =>
      if Nat.eqb o t
      then set_sangaboard_lock (Locked o (S n)) ;; emit (EvAcquire t)
      else blocked
  end.

Definition release (t : tid) : M unit :=
  l <- get_sangaboard_lock ;;
  match l with
  | Unlocked => raise (RuntimeError "cannot release un-acquired lock")
  | Locked o n =>
      if Nat.eqb o t
      then
        set_sangaboard_lock
          (match n with O => Unlocked | S n' => Locked o n' end) ;;
        emit (EvRelease t)
      else raise (RuntimeError "cannot release un-acquired lock")
  end.

(** A method call on the driver object [self._sangaboard] (every [sb] of
    the source is an alias of it): the call is recorded, the object is
    left as the driver leaves it, and the driver's exception propagates. *)
Definition call {A : Type} (ev : event) (f : D -> answer A * D) : M A :=
  sb <- get_sangaboard ;;
  emit ev ;;
  set_sangaboard (snd (f sb)) ;;
  lift (fst (f sb)).

(** The four driver calls the class makes. *)
Definition read_position : M (list Z) := call EvReadPosition (sb_position drv).

Definition move_rel (v : list Z) : M unit :=
  call (EvMoveRel v) (sb_move_rel drv v).

Definition close : M unit := call EvClose (sb_close drv).

Definition ser_write (data : list byte) : M unit :=
  call (EvSerWrite data) (sb_ser_write drv data).

(** *** The methods of the class *)

(** [__init__] with [port] and the other keyword arguments; [position] and [moving] start
    at the defaults of their property descriptors. *)
Definition __init__ (port : pyval) (kwargs : dict pyval) : self :=
  {| sangaboard_kwargs := dict_set "port" port kwargs;
     _sangaboard := None;
     _sangaboard_lock := None;
     position := [];
     moving := false |}.

(** [with self.sangaboard() as sb: body]. The context manager takes the
    lock, then reads [self._sangaboard]; the lock is released however the
    body ends. *)
Definition sangaboard {A : Type} (t : tid) (body : M A) : M A :=
  acquire t ;;
  finally (get_sangaboard ;; body) (release t).

Definition axis_names : M (list string) := ret _axis_names.

Definition update_position (t : tid) : M unit :=
  sangaboard t
    (names <- axis_names ;;
     coords <- read_position ;;
     set_position (dict_of_pairs (zip names coords))).

Definition __enter__ (t : tid) : M unit :=
  kwargs <- get_sangaboard_kwargs ;;
  emit (EvOpen kwargs) ;;
  sb <- lift (Sangaboard drv kwargs) ;;
  set_sangaboard sb ;;
  set_sangaboard_lock Unlocked ;;
  update_position t.

Definition __exit__ (t : tid) : M unit :=
  sangaboard t close.

Definition thing_state : M (dict (dict Z)) :=
  p <- get_position ;;
  ret [("position", p)].

Definition move_relative (t : tid) (kwargs : dict Z) : M unit :=
  sangaboard t
    (set_moving true ;;
     names <- axis_names ;;
     move_rel (map (fun k => dict_get_default k 0 kwargs) names) ;;
     set_moving false ;;
     update_position t).

(** [{k: v - self.position[k] for k, v in kwargs}]: the loop runs over the
    keys of [kwargs], and each key, a [str], is unpacked into [k, v]. *)
Fixpoint displacement (keys : list string) (acc : dict Z) : M (dict Z) :=
  match keys with
  | [] => ret acc
  | s :: keys' =>
      kv <- lift (unpack2 s) ;;
      p <- get_position ;;
      x <- getitem p (fst kv) ;;
      d <- lift (str_sub_int (snd kv) x) ;;
      displacement keys' (dict_set (fst kv) d acc)
  end.

Definition move_absolute (t : tid) (kwargs : dict Z) : M unit :=
  sangaboard t
    (update_position t ;;
     disp <- displacement (dict_keys kwargs) [] ;;
     move_relative t disp).

Definition abort_move : M unit :=
  m <- get_moving ;;
  if m then
    emit (EvWarning "Aborting move: this is an experimental feature!") ;;
    sb <- get_sangaboard ;;
    ser_write (encode (String.append "stop" (sb_termination_character drv sb)))
  else raise (HTTPException 409 "Stage is not moving.").

End Thing.

Arguments ret {D A} a _.
Arguments bind {D A B} m f _.
Arguments raise {D A} e _.
Arguments emit {D} e _.
Arguments lift {D A} a _.
Arguments finally {D A} body cleanup _.
Arguments blocked {D A} _.
Arguments get_sangaboard {D} _.
Arguments get_sangaboard_lock {D} _.
Arguments get_sangaboard_kwargs {D} _.
Arguments get_position {D} _.
Arguments get_moving {D} _.
Arguments set_sangaboard {D} sb _.
Arguments set_sangaboard_lock {D} l _.
Arguments set_position {D} p _.
Arguments set_moving {D} b _.
Arguments getitem {D} d k _.
Arguments acquire {D} t _.
Arguments release {D} t _.
Arguments call {D A} ev f _.
Arguments read_position {D} drv _.
Arguments move_rel {D} drv v _.
Arguments close {D} drv _.
Arguments ser_write {D} drv data _.
Arguments __init__ {D} port kwargs.
Arguments sangaboard {D A} t body _.
Arguments axis_names {D} _.
Arguments update_position {D} drv t _.
Arguments __enter__ {D} drv t _.
Arguments __exit__ {D} drv t _.
Arguments thing_state {D} _.
Arguments move_relative {D} drv t kwargs _.
Arguments displacement {D} keys acc _.
Arguments move_absolute {D} drv t kwargs _.
Arguments abort_move {D} drv _.

(* ===================================================================== *)
(** ** The calls a host can make *)
(* ===================================================================== *)

Inductive action :=
| Enter
| Exit
| ReadAxisNames
| ReadPosition
| ReadMoving
| ThingState
| UpdatePosition
| MoveRelative (kwargs : dict Z)
| MoveAbsolute (kwargs : dict Z)
| AbortMove.

Definition void {D A : Type} (m : M D A) : M D unit :=
  bind m (fun _ => ret tt).

(** Thread [t] makes the call [a]; the value returned is dropped. *)
Definition perform {D : Type} (drv : Driver D) (t : tid) (a : action) : M D unit :=
  match a with
  | Enter => __enter__ drv t
  | Exit => __exit__ drv t
  | ReadAxisNames => void axis_names
  | ReadPosition => void get_position
  | ReadMoving => void get_moving
  | ThingState => void thing_state
  | UpdatePosition => update_position drv t
  | MoveRelative kwargs => move_relative drv t kwargs
  | MoveAbsolute kwargs => move_absolute drv t kwargs
  | AbortMove => abort_move drv
  end.

(** The objects a host can see: a fresh instance, and whatever a call
    leaves behind, however the call ended. *)
Inductive reachable {D : Type} (drv : Driver D) : SangaboardThing D -> Prop :=
| reach_init : forall port kwargs, reachable drv (__init__ port kwargs)
| reach_call : forall s t a r s' tr,
    reachable drv s -> perform drv t a s = (r, s', tr) -> reachable drv s'.

(** Thread [t] can enter [with self.sangaboard()] at once: the driver
    object and the lock exist and the lock is free or already its own. *)
Definition ready {D : Type} (t : tid) (s : SangaboardThing D) : bool :=
  match _sangaboard s, _sangaboard_lock s with
  | Some _, Some l => lock_free_for t l
  | _, _ => false
  end.

(** The keys of a position are the first axis names, in order. *)
Definition keys_in_axis_order (p : dict Z) : Prop :=
  exists n : nat, dict_keys p = firstn n _axis_names.

(** A computation keeps [Q] of the cached position, however it ends. *)
Definition preserves (D : Type) (Q : dict Z -> Prop) {A : Type} (m : M D A) : Prop :=
  forall s r s' tr, Q (position s) -> m s = (r, s', tr) -> Q (position s').

(* ===================================================================== *)
(** ** Stand-ins for the driver library *)
(* ===================================================================== *)

Module Mock.

(** ["\n"] *)
Definition newline : string := String (ascii_of_nat 10) EmptyString.

Fixpoint add_vec (p v : list Z) : list Z :=
  match p, v with
  | x :: p', d :: v' => (x + d) :: add_vec p' v'
  | _, _ => p
  end.

(** A board that starts at [start] and moves by exactly the commanded
    displacement. *)
Definition ideal (start : list Z) : Driver (list Z) :=
  {| Sangaboard := fun _ => Returns start;
     sb_position := fun d => (Returns d, d);
     sb_move_rel := fun v d => (Returns tt, add_vec d v);
     sb_close := fun d => (Returns tt, d);
     sb_termination_character := fun _ => newline;
     sb_ser_write := fun _ d => (Returns tt, d) |}.

(** A board at [start] whose every move fails. *)
Definition faulty (start : list Z) : Driver (list Z) :=
  {| Sangaboard := fun _ => Returns start;
     sb_position := fun d => (Returns d, d);
     sb_move_rel := fun _ d => (Raises (DriverError "move failed"), d);
     sb_close := fun d => (Returns tt, d);
     sb_termination_character := fun _ => newline;
     sb_ser_write := fun _ d => (Returns tt, d) |}.

(** A board that reports only its first [n] coordinates. *)
Definition short (n : nat) (start : list Z) : Driver (list Z) :=
  {| Sangaboard := fun _ => Returns start;
     sb_position := fun d => (Returns (firstn n d), d);
     sb_move_rel := fun v d => (Returns tt, add_vec d v);
     sb_close := fun d => (Returns tt, d);
     sb_termination_character := fun _ => newline;
     sb_ser_write := fun _ d => (Returns tt, d) |}.


(** The object after [__init__()] and [__enter__()] on thread 0. *)
Definition started {D : Type} (drv : Driver D) : SangaboardThing D :=
  snd (fst (__enter__ drv 0%nat (__init__ PyNone []))).

(** A move caught in flight: thread [t] holds the lock and has set
    [moving], and the driver call has not returned yet. *)
Definition in_flight {D : Type} (drv : Driver D) (t : tid) : SangaboardThing D :=
  snd (fst (bind (acquire t) (fun _ => bind get_sangaboard (fun _ => set_moving true))
              (started drv))).

End Mock.

(* ===================================================================== *)
(** ** Vocabulary for traces, calls and drivers *)
(* ===================================================================== *)

Definition is_open (e : event) : bool :=
  match e with EvOpen _ => true | _ => false end.

(** The constructor calls of a trace. *)
Definition opens (tr : list event) : list event := filter is_open tr.

(** The calls that enter [with self.sangaboard()]. *)
Definition takes_lock (a : action) : bool :=
  match a with
  | Exit | UpdatePosition | MoveRelative _ | MoveAbsolute _ => true
  | _ => false
  end.

(** Every call on an open driver object in the trace happens between an
    acquire and its release; [depth] counts the acquisitions still open. *)
Fixpoint guarded (depth : nat) (tr : list event) : bool :=
  match tr with
  | [] => true
  | EvAcquire _ :: tr' => guarded (S depth) tr'
  | EvRelease _ :: tr' => guarded (Nat.pred depth) tr'
  | EvReadPosition :: tr' | EvMoveRel _ :: tr' | EvClose :: tr'
  | EvSerWrite _ :: tr' =>
      match depth with
      | O => false
      | S _ => guarded depth tr'
      end
  | EvOpen _ :: tr' | EvWarning _ :: tr' => guarded depth tr'
  end.

(** The lock is not held: it does not exist yet, or it is free. *)
Definition lock_idle {D : Type} (s : SangaboardThing D) : Prop :=
  _sangaboard_lock s = None \/ _sangaboard_lock s = Some Unlocked.

(** A driver whose [move_rel] always returns. *)
Definition moves_always_return {D : Type} (drv : Driver D) : Prop :=
  forall (v : list Z) (sb : D), fst (sb_move_rel drv v sb) = Returns tt.

(** A driver that reports, through [pos], exactly the displacement it was
    commanded: reading returns [pos] and changes nothing, and a move
    returns and shifts every coordinate by its entry of the vector. *)
Definition reports_commanded_displacement
           {D : Type} (drv : Driver D) (pos : D -> list Z) : Prop :=
  (forall sb : D, sb_position drv sb = (Returns (pos sb), sb)) /\
  (forall (v : list Z) (sb : D),
      fst (sb_move_rel drv v sb) = Returns tt /\
      forall (i : nat) (x d : Z),
        nth_error (pos sb) i = Some x ->
        nth_error v i = Some d ->
        nth_error (pos (snd (sb_move_rel drv v sb))) i = Some (x + d)).

(** More stand-ins for the driver library. *)
Module Stub.

(** A port that cannot be opened. *)
Definition refusing : Driver unit :=
  {| Sangaboard := fun _ => Raises (DriverError "no such port");
     sb_position := fun d => (Returns [], d);
     sb_move_rel := fun _ d => (Returns tt, d);
     sb_close := fun d => (Returns tt, d);
     sb_termination_character := fun _ => Mock.newline;
     sb_ser_write := fun _ d => (Returns tt, d) |}.

(** A board that opens but never answers a position query. *)
Definition mute : Driver unit :=
  {| Sangaboard := fun _ => Returns tt;
     sb_position := fun d => (Raises (DriverError "no reply"), d);
     sb_move_rel := fun _ d => (Returns tt, d);
     sb_close := fun d => (Returns tt, d);
     sb_termination_character := fun _ => Mock.newline;
     sb_ser_write := fun _ d => (Returns tt, d) |}.

(** A board that carries out one move and then stops answering. *)
Definition fading (start : list Z) : Driver (list Z * bool) :=
  {| Sangaboard := fun _ => Returns (start, true);
     sb_position := fun d =>
       if snd d then (Returns (fst d), d)
       else (Raises (DriverError "no reply"), d);
     sb_move_rel := fun v d => (Returns tt, (Mock.add_vec (fst d) v, false));
     sb_close := fun d => (Returns tt, d);
     sb_termination_character := fun _ => Mock.newline;
     sb_ser_write := fun _ d => (Returns tt, d) |}.

End Stub.

(* ===================================================================== *)
(** ** Symbolic execution of a method *)
(* ===================================================================== *)

Ltac unfold_py :=
  cbv beta iota zeta delta
    [move_relative move_absolute update_position __enter__ __exit__
     thing_state abort_move sangaboard acquire release call read_position
     move_rel close ser_write void perform finally bind ret
     raise emit lift blocked get_sangaboard get_sangaboard_lock
     get_sangaboard_kwargs get_position get_moving set_sangaboard
     set_sangaboard_lock set_position set_moving getitem axis_names
     sangaboard_kwargs _sangaboard _sangaboard_lock position moving].

Ltac driver_case :=
  match goal with
  | |- context [sb_move_rel ?d ?v ?sb] =>
      destruct (sb_move_rel d v sb) as [[[]|?] ?] eqn:?
  | |- context [sb_position ?d ?sb] =>
      destruct (sb_position d sb) as [[?|?] ?] eqn:?
  | |- context [sb_close ?d ?sb] =>
      destruct (sb_close d sb) as [[[]|?] ?] eqn:?
  | |- context [sb_ser_write ?d ?v ?sb] =>
      destruct (sb_ser_write d v sb) as [[[]|?] ?] eqn:?
  | |- context [Sangaboard ?d ?kw] =>
      destruct (Sangaboard d kw) as [?|?] eqn:?
  end.

Ltac rewrite_tests :=
  rewrite ?Nat.eqb_refl;
  repeat match goal with
         | H : Nat.eqb _ _ = false |- _ => rewrite H
         end.

Ltac simp_py :=
  repeat progress
    (unfold_py; cbn [fst snd app displacement dict_keys map]; rewrite_tests).

Ltac run_py := simp_py; repeat (driver_case; simp_py).

(** Every shape an object can have when thread [t] calls a method. *)
Ltac state_cases s t :=
  destruct s as [? [?|] [[|? ?]|] ? ?];
  try match goal with
      | |- context [Locked ?o _] =>
          let E := fresh "E" in
          destruct (Nat.eqb o t) eqn:E; [apply Nat.eqb_eq in E; subst o | ]
      end.

(* ===================================================================== *)
(** ** Facts about dicts and the axis names *)
(* ===================================================================== *)

Lemma dict_set_fresh {V : Type} (k : string) (v : V) (d : dict V) :
  ~ In k (dict_keys d) -> dict_set k v d = d ++ [(k, v)].
Proof.
  induction d as [|[k' v'] d IH]; cbn; intros Hk.
  - reflexivity.
  - destruct (String.eqb_spec k k') as [->|_].
    + exfalso. apply Hk. now left.
    + rewrite IH; [reflexivity | intros Hin; apply Hk; now right].
Qed.

Lemma fold_dict_set_nodup {V : Type} (l : list (string * V)) :
  forall acc : dict V,
    NoDup (map fst (acc ++ l)) ->
    fold_left (fun d kv => dict_set (fst kv) (snd kv) d) l acc = acc ++ l.
Proof.
  induction l as [|[k v] l IH]; intros acc Hnd; cbn.
  - now rewrite app_nil_r.
  - rewrite dict_set_fresh.
    + rewrite IH; rewrite <- app_assoc; [reflexivity | exact Hnd].
    + rewrite map_app in Hnd. cbn in Hnd.
      apply NoDup_remove_2 in Hnd.
      intros Hin. apply Hnd. apply in_or_app. now left.
Qed.

(** A comprehension over pairs with distinct keys is the list of pairs. *)
Lemma dict_of_pairs_nodup {V : Type} (l : list (string * V)) :
  NoDup (map fst l) -> dict_of_pairs l = l.
Proof.
  intros Hnd. unfold dict_of_pairs. now rewrite fold_dict_set_nodup.
Qed.

Lemma zip_keys {B : Type} (xs : list string) :
  forall ys : list B, map fst (zip xs ys) = firstn (List.length ys) xs.
Proof.
  unfold zip.
  induction xs as [|x xs IH]; intros [|y ys]; cbn; try reflexivity.
  now rewrite IH.
Qed.

Lemma firstn_In {A : Type} (a : A) (n : nat) :
  forall l : list A, In a (firstn n l) -> In a l.
Proof.
  induction n as [|n IH]; intros [|b l]; cbn; try tauto.
  intros [->|Hin]; [now left | right; now apply IH].
Qed.

Lemma NoDup_firstn {A : Type} (n : nat) :
  forall l : list A, NoDup l -> NoDup (firstn n l).
Proof.
  induction n as [|n IH]; intros [|a l] Hnd; cbn; try constructor.
  - inversion Hnd as [|? ? Hnotin Hl]; subst.
    intros Hin. apply Hnotin. eapply firstn_In. exact Hin.
  - inversion Hnd; subst. now apply IH.
Qed.

Lemma _axis_names_nodup : NoDup _axis_names.
Proof.
  unfold _axis_names.
  repeat constructor; cbn; intuition discriminate.
Qed.

(** The dict that [update_position] builds is the zip itself. *)
Lemma dict_of_zip_axis_names (coords : list Z) :
  dict_of_pairs (zip _axis_names coords) = zip _axis_names coords.
Proof.
  apply dict_of_pairs_nodup. rewrite zip_keys.
  apply NoDup_firstn, _axis_names_nodup.
Qed.

Lemma keys_in_axis_order_zip (coords : list Z) :
  keys_in_axis_order (zip _axis_names coords).
Proof.
  exists (List.length coords). apply zip_keys.
Qed.

Lemma keys_in_axis_order_incl (p : dict Z) :
  keys_in_axis_order p -> incl (dict_keys p) _axis_names.
Proof.
  intros [n Hn] k Hk. rewrite Hn in Hk.
  eapply firstn_In. exact Hk.
Qed.

(** The comprehension of [move_absolute] fails at its first key, whatever
    the key is, and touches nothing. *)
Lemma displacement_nonempty {D : Type} (keys : list string)
      (acc : dict Z) (s : SangaboardThing D) :
  keys <> [] -> exists e, displacement keys acc s = (Raise e, s, []).
Proof.
  destruct keys as [|k keys]; [congruence | intros _].
  cbn [displacement]. unfold bind, lift, get_position, getitem.
  destruct (unpack2 k) as [[a b]|e] eqn:Hk; cbn.
  - destruct (dict_get a (position s)); cbn; eauto.
  - eauto.
Qed.

(** The list comprehension of [move_relative], entry by entry. *)
Lemma displacement_vector_entries (kwargs : dict Z) (i : nat) (k : string) :
  nth_error _axis_names i = Some k ->
  nth_error (map (fun k => dict_get_default k 0 kwargs) _axis_names) i =
  Some (match dict_get k kwargs with Some v => v | None => 0 end).
Proof.
  intros Hk. rewrite nth_error_map, Hk. reflexivity.
Qed.

(* ===================================================================== *)
(** ** [move_relative] *)
(* ===================================================================== *)

(** C3. When thread [t] can enter the lock of a started controller,
    [move_relative] makes exactly one [move_rel] call on the
    driver, whatever the mapping and however the driver answers. Its
    argument has one entry per axis name, in the order of [_axis_names]:
    the value of [kwargs] where the axis is a key, and 0 where it is not. *)
Theorem move_relative_sends_one_vector
        (D : Type) (drv : Driver D) (t : tid) (kwargs : dict Z)
        (s : SangaboardThing D) :
  ready t s = true ->
  forall r s' tr,
    move_relative drv t kwargs s = (r, s', tr) ->
    exists vec : list Z,
      moves tr = [EvMoveRel vec] /\
      List.length vec = List.length _axis_names /\
      forall (i : nat) (k : string),
        nth_error _axis_names i = Some k ->
        nth_error vec i =
        Some (match dict_get k kwargs with Some v => v | None => 0 end).
Proof.
  intros Hready r s' tr.
  state_cases s t; cbn in Hready; rewrite ?E in Hready; try discriminate.
  all: run_py; intros [= <- <- <-].
  all: exists (map (fun k => dict_get_default k 0 kwargs) _axis_names).
  all: split; [reflexivity | split; [reflexivity | ]].
  all: intros i k; apply displacement_vector_entries.
Qed.

Lemma move_relative_sends_one_vector_witness :
  ready 0%nat (Mock.started (Mock.ideal [0; 0; 0])) = true /\
  exists vec : list Z,
    moves (snd (move_relative (Mock.ideal [0; 0; 0]) 0%nat [("y", 7)]
                  (Mock.started (Mock.ideal [0; 0; 0])))) = [EvMoveRel vec] /\
    List.length vec = List.length _axis_names /\
    forall (i : nat) (k : string),
      nth_error _axis_names i = Some k ->
      nth_error vec i =
      Some (match dict_get k [("y", 7)] with Some v => v | None => 0 end).
Proof.
  split; [reflexivity | ].
  destruct (move_relative (Mock.ideal [0; 0; 0]) 0%nat [("y", 7)]
              (Mock.started (Mock.ideal [0; 0; 0]))) as [[r s'] tr] eqn:Hrun.
  apply (move_relative_sends_one_vector (list Z) (Mock.ideal [0; 0; 0]) 0%nat
           [("y", 7)] (Mock.started (Mock.ideal [0; 0; 0]))
           eq_refl r s' tr Hrun).
Defined.

(** C7. When [move_relative] returns normally, its trace holds exactly
    one position read; the driver object is the one that read leaves, and
    the cached position pairs the axis names, in order, with the
    coordinates that read reported. In the scenario, from
    [{x: 0, y: 0, z: 0}], [move_relative(x=10)] on a board that then
    reports [(10, 0, 0)] leaves the position property at
    [{x: 10, y: 0, z: 0}] with [moving] false. *)
Theorem move_relative_resyncs_position :
  (forall (D : Type) (drv : Driver D) (t : tid) (kwargs : dict Z)
          (s s' : SangaboardThing D) (tr : list event),
      move_relative drv t kwargs s = (Ok tt, s', tr) ->
      position_reads tr = 1%nat /\
      exists (sb : D) (coords : list Z) (sb' : D),
        _sangaboard s = Some sb /\
        sb_position drv
          (snd (sb_move_rel drv
                  (map (fun k => dict_get_default k 0 kwargs) _axis_names) sb))
        = (Returns coords, sb') /\
        _sangaboard s' = Some sb' /\
        position s' = zip _axis_names coords /\
        moving s' = false) /\
  (let drv := Mock.ideal [0; 0; 0] in
   let s0 := Mock.started drv in
   position s0 = [("x", 0); ("y", 0); ("z", 0)] /\
   exists s1 tr,
     move_relative drv 0%nat [("x", 10)] s0 = (Ok tt, s1, tr) /\
     _sangaboard s1 = Some [10; 0; 0] /\
     get_position s1 = (Ok [("x", 10); ("y", 0); ("z", 0)], s1, []) /\
     get_moving s1 = (Ok false, s1, [])).
Proof.
  split.
  - intros D drv t kwargs s s' tr.
    state_cases s t.
    all: run_py; intros Hrun; inversion Hrun; subst; clear Hrun.
    all: split; [reflexivity | ].
    all: do 3 eexists; split; [reflexivity | ].
    all: match goal with
         | H : sb_move_rel _ _ _ = _ |- _ => rewrite H; cbn [snd]
         end.
    all: split; [eassumption | ].
    all: cbn [_sangaboard position moving].
    all: split; [reflexivity | split; [ | reflexivity]].
    all: exact (dict_of_zip_axis_names _).
  - cbn zeta. split; [reflexivity | ].
    do 2 eexists. split; [vm_compute; reflexivity | ].
    repeat split.
Qed.

Lemma move_relative_resyncs_position_witness :
  move_relative (Mock.ideal [0; 0; 0]) 0%nat [("x", 10)]
    (Mock.started (Mock.ideal [0; 0; 0])) =
  (Ok tt,
   {| sangaboard_kwargs := [("port", PyNone)];
      _sangaboard := Some [10; 0; 0];
      _sangaboard_lock := Some Unlocked;
      position := [("x", 10); ("y", 0); ("z", 0)];
      moving := false |},
   [EvAcquire 0%nat; EvMoveRel [10; 0; 0]; EvAcquire 0%nat; EvReadPosition;
    EvRelease 0%nat; EvRelease 0%nat]) /\
  position_reads
    [EvAcquire 0%nat; EvMoveRel [10; 0; 0]; EvAcquire 0%nat; EvReadPosition;
     EvRelease 0%nat; EvRelease 0%nat] = 1%nat.
Proof.
  assert (Hrun : move_relative (Mock.ideal [0; 0; 0]) 0%nat [("x", 10)]
                   (Mock.started (Mock.ideal [0; 0; 0])) =
                 (Ok tt,
                  {| sangaboard_kwargs := [("port", PyNone)];
                     _sangaboard := Some [10; 0; 0];
                     _sangaboard_lock := Some Unlocked;
                     position := [("x", 10); ("y", 0); ("z", 0)];
                     moving := false |},
                  [EvAcquire 0%nat; EvMoveRel [10; 0; 0]; EvAcquire 0%nat;
                   EvReadPosition; EvRelease 0%nat; EvRelease 0%nat]))
    by (vm_compute; reflexivity).
  split; [exact Hrun | ].
  exact (proj1 (proj1 move_relative_resyncs_position _ _ _ _ _ _ _ Hrun)).
Defined.

(** On the way out of a [move_relative] that returned, [moving] is false
    and the lock is as it was found. *)
Lemma move_relative_ok_clears_moving
      (D : Type) (drv : Driver D) (t : tid) (kwargs : dict Z)
      (s s' : SangaboardThing D) (tr : list event) :
  move_relative drv t kwargs s = (Ok tt, s', tr) ->
  moving s' = false /\ _sangaboard_lock s' = _sangaboard_lock s.
Proof.
  state_cases s t.
  all: run_py; intros Hrun; inversion Hrun; subst; clear Hrun.
  all: split; reflexivity.
Qed.

(** While another thread holds the lock, [move_relative] waits and nothing
    has happened yet. *)
Lemma move_relative_waits_for_lock
      (D : Type) (drv : Driver D) (t o : tid) (n : nat) (kwargs : dict Z)
      (s : SangaboardThing D) :
  _sangaboard_lock s = Some (Locked o n) -> o <> t ->
  move_relative drv t kwargs s = (Blocked, s, []).
Proof.
  intros Hl Hne. apply Nat.eqb_neq in Hne.
  destruct s as [kws sb l p m]. cbn in Hl. subst l.
  run_py. reflexivity.
Qed.

(* ===================================================================== *)
(** ** [abort_move] *)
(* ===================================================================== *)

(** C5. With [moving] false, [abort_move] raises the HTTP 409 conflict
    error "Stage is not moving.", which is no driver error; its trace is
    empty, so nothing is written to the hardware, and the object is left
    exactly as it was. *)
Theorem abort_move_idle_conflict
        (D : Type) (drv : Driver D) (s : SangaboardThing D) :
  moving s = false ->
  abort_move drv s =
  (Raise (HTTPException 409 "Stage is not moving."), s, []) /\
  ser_writes (snd (abort_move drv s)) = [] /\
  hardware (snd (abort_move drv s)) = [] /\
  forall msg : string,
    HTTPException 409 "Stage is not moving." <> DriverError msg.
Proof.
  intros Hidle.
  assert (Hrun : abort_move drv s =
                 (Raise (HTTPException 409 "Stage is not moving."), s, [])).
  { destruct s as [kws sb l p m]. cbn in Hidle. subst m.
    run_py. reflexivity. }
  rewrite Hrun. repeat split. intros msg. discriminate.
Qed.

Lemma abort_move_idle_conflict_witness :
  abort_move (Mock.ideal [0; 0; 0]) (Mock.started (Mock.ideal [0; 0; 0])) =
  (Raise (HTTPException 409 "Stage is not moving."),
   Mock.started (Mock.ideal [0; 0; 0]), []).
Proof.
  exact (proj1 (abort_move_idle_conflict (list Z) (Mock.ideal [0; 0; 0])
                  (Mock.started (Mock.ideal [0; 0; 0])) eq_refl)).
Defined.

(** C6. With [moving] true on a controller that holds its driver object,
    [abort_move] makes exactly one hardware call: the raw write of
    ["stop"] followed by the driver's termination character. It performs
    no lock operation, leaves the lock as it is and never waits, whoever
    holds the lock. *)
Theorem abort_move_writes_stop_without_lock
        (D : Type) (drv : Driver D) (s : SangaboardThing D) (sb : D) :
  moving s = true ->
  _sangaboard s = Some sb ->
  forall r s' tr,
    abort_move drv s = (r, s', tr) ->
    hardware tr =
    [EvSerWrite (encode (String.append "stop" (sb_termination_character drv sb)))] /\
    ser_writes tr =
    [EvSerWrite (encode (String.append "stop" (sb_termination_character drv sb)))] /\
    lock_events tr = [] /\
    _sangaboard_lock s' = _sangaboard_lock s /\
    r <> Blocked.
Proof.
  intros Hmoving Hsb r s' tr.
  destruct s as [kws sb0 l p m]. cbn in Hmoving, Hsb. subst m sb0.
  run_py; intros Hrun; inversion Hrun; subst; clear Hrun.
  all: repeat split; discriminate.
Qed.

Lemma abort_move_writes_stop_without_lock_witness :
  _sangaboard_lock (Mock.in_flight (Mock.ideal [0; 0; 0]) 1%nat) =
  Some (Locked 1%nat 0%nat) /\
  hardware (snd (abort_move (Mock.ideal [0; 0; 0])
                   (Mock.in_flight (Mock.ideal [0; 0; 0]) 1%nat))) =
  [EvSerWrite (encode (String.append "stop" Mock.newline))] /\
  lock_events (snd (abort_move (Mock.ideal [0; 0; 0])
                      (Mock.in_flight (Mock.ideal [0; 0; 0]) 1%nat))) = [].
Proof.
  split; [reflexivity | ].
  destruct (abort_move (Mock.ideal [0; 0; 0])
              (Mock.in_flight (Mock.ideal [0; 0; 0]) 1%nat))
    as [[r s'] tr] eqn:Hrun.
  destruct (abort_move_writes_stop_without_lock (list Z) (Mock.ideal [0; 0; 0])
              (Mock.in_flight (Mock.ideal [0; 0; 0]) 1%nat) [0; 0; 0]
              eq_refl eq_refl r s' tr Hrun) as (Hhw & _ & Hlock & _).
  split; [exact Hhw | exact Hlock].
Defined.

(** C9. [abort_move] assigns no attribute of the controller: in either
    branch, and whether the write returns or raises, the cached position,
    the [moving] flag, the lock and the constructor arguments are after
    the call what they were before it. In particular [moving] is still
    true after an abort that went through. *)
Theorem abort_move_frame
        (D : Type) (drv : Driver D) (s : SangaboardThing D) :
  position (snd (fst (abort_move drv s))) = position s /\
  moving (snd (fst (abort_move drv s))) = moving s /\
  _sangaboard_lock (snd (fst (abort_move drv s))) = _sangaboard_lock s /\
  sangaboard_kwargs (snd (fst (abort_move drv s))) = sangaboard_kwargs s.
Proof.
  destruct s as [kws [sb|] l p [|]].
  all: run_py; repeat split.
Qed.

(* ===================================================================== *)
(** ** [move_absolute] *)
(* ===================================================================== *)

(** C10. A [move_absolute] with no keyword arguments that returns normally
    has made three driver calls, in this order: a position read, one
    [move_rel] with the all-zero vector, and a second position read. *)
Theorem move_absolute_empty_targets
        (D : Type) (drv : Driver D) (t : tid)
        (s s' : SangaboardThing D) (tr : list event) :
  move_absolute drv t [] s = (Ok tt, s', tr) ->
  hardware tr = [EvReadPosition; EvMoveRel [0; 0; 0]; EvReadPosition] /\
  moves tr = [EvMoveRel [0; 0; 0]] /\
  position_reads tr = 2%nat.
Proof.
  state_cases s t.
  all: run_py; intros Hrun; inversion Hrun; subst; clear Hrun.
  all: repeat split.
Qed.

Lemma move_absolute_empty_targets_witness :
  hardware
    [EvAcquire 0%nat; EvAcquire 0%nat; EvReadPosition; EvRelease 0%nat;
     EvAcquire 0%nat; EvMoveRel [0; 0; 0]; EvAcquire 0%nat; EvReadPosition;
     EvRelease 0%nat; EvRelease 0%nat; EvRelease 0%nat] =
  [EvReadPosition; EvMoveRel [0; 0; 0]; EvReadPosition].
Proof.
  refine (proj1 (move_absolute_empty_targets (list Z) (Mock.ideal [10; 0; 0])
                   0%nat (Mock.started (Mock.ideal [10; 0; 0]))
                   (Mock.started (Mock.ideal [10; 0; 0])) _ _)).
  vm_compute. reflexivity.
Defined.

(** X14. With any keyword argument at all, [move_absolute] never returns
    normally and never reaches the driver's [move_rel]: the comprehension
    raises at the first key. *)
Lemma move_absolute_nonempty_never_moves
      (D : Type) (drv : Driver D) (t : tid) (k : string) (v : Z)
      (kwargs : dict Z) (s : SangaboardThing D) :
  forall r s' tr,
    move_absolute drv t ((k, v) :: kwargs) s = (r, s', tr) ->
    r <> Ok tt /\ moves tr = [].
Proof.
  intros r s' tr.
  unfold move_absolute.
  assert (Hkeys : dict_keys ((k, v) :: kwargs) <> []) by discriminate.
  revert Hkeys. generalize (dict_keys ((k, v) :: kwargs)) as keys.
  intros keys Hkeys.
  state_cases s t.
  all: run_py.
  all: try match goal with
           | |- context [displacement ?ks ?acc ?st] =>
               let e := fresh "e" in
               let He := fresh "He" in
               destruct (displacement_nonempty ks acc st Hkeys) as [e He];
               rewrite He
           end.
  all: simp_py.
  all: intros Hrun; inversion Hrun; subst; clear Hrun.
  all: split; [discriminate | reflexivity].
Qed.

(** C1 at its own scenario. With the cached and the real position at
    [{x: 10, y: 0, z: 0}], [move_absolute(x=5)] resyncs once and then
    raises [ValueError] while unpacking the key ["x"]: no [move_rel] is
    sent and the stage and the cached position stay at x = 10. *)
Theorem move_absolute_x5_raises :
  position (Mock.started (Mock.ideal [10; 0; 0])) =
  [("x", 10); ("y", 0); ("z", 0)] /\
  move_absolute (Mock.ideal [10; 0; 0]) 0%nat [("x", 5)]
    (Mock.started (Mock.ideal [10; 0; 0])) =
  (Raise (ValueError "not enough values to unpack (expected 2, got 1)"),
   {| sangaboard_kwargs := [("port", PyNone)];
      _sangaboard := Some [10; 0; 0];
      _sangaboard_lock := Some Unlocked;
      position := [("x", 10); ("y", 0); ("z", 0)];
      moving := false |},
   [EvAcquire 0%nat; EvAcquire 0%nat; EvReadPosition; EvRelease 0%nat;
    EvRelease 0%nat]).
Proof.
  split; vm_compute; reflexivity.
Qed.

(* ===================================================================== *)
(** ** The [moving] flag when the driver raises *)
(* ===================================================================== *)

(** X9. When the driver's [move_rel] raises, [move_relative] lets the
    exception through with the lock released and [moving] still true;
    the cached position is not refreshed. *)
Lemma move_relative_driver_raises
      (D : Type) (drv : Driver D) (t : tid) (kwargs : dict Z)
      (s : SangaboardThing D) (sb sb' : D) (e : exn) :
  ready t s = true ->
  _sangaboard s = Some sb ->
  sb_move_rel drv (map (fun k => dict_get_default k 0 kwargs) _axis_names) sb
  = (Raises e, sb') ->
  exists s' tr,
    move_relative drv t kwargs s = (Raise e, s', tr) /\
    moving s' = true /\
    _sangaboard_lock s' = _sangaboard_lock s /\
    position s' = position s.
Proof.
  intros Hready Hsb Hmove.
  state_cases s t; cbn in Hready, Hsb; rewrite ?E in Hready;
    try discriminate.
  all: injection Hsb as ->.
  all: simp_py; rewrite Hmove; simp_py.
  all: do 2 eexists; split; [reflexivity | repeat split].
Qed.

(** C2 at a failing driver. A [move_relative(x=1)] whose driver call
    raises propagates the error with the lock released but with [moving]
    left true; the same holds for [move_absolute()] with no arguments. *)
Theorem move_relative_error_leaves_moving_set :
  moving (Mock.started (Mock.faulty [0; 0; 0])) = false /\
  move_relative (Mock.faulty [0; 0; 0]) 0%nat [("x", 1)]
    (Mock.started (Mock.faulty [0; 0; 0])) =
  (Raise (DriverError "move failed"),
   {| sangaboard_kwargs := [("port", PyNone)];
      _sangaboard := Some [0; 0; 0];
      _sangaboard_lock := Some Unlocked;
      position := [("x", 0); ("y", 0); ("z", 0)];
      moving := true |},
   [EvAcquire 0%nat; EvMoveRel [1; 0; 0]; EvRelease 0%nat]) /\
  moving (snd (fst (move_absolute (Mock.faulty [0; 0; 0]) 0%nat []
                      (Mock.started (Mock.faulty [0; 0; 0]))))) = true.
Proof.
  repeat split; vm_compute; reflexivity.
Qed.

(* ===================================================================== *)
(** ** What every method keeps true of the cached position *)
(* ===================================================================== *)

Section Preservation.

Variable D : Type.
Variable Q : dict Z -> Prop.

Lemma preserves_ret {A : Type} (a : A) : preserves D Q (ret a).
Proof. intros s r s' tr HQ [= _ <- _]. exact HQ. Qed.

Lemma preserves_raise {A : Type} (e : exn) : preserves D Q (@raise D A e).
Proof. intros s r s' tr HQ [= _ <- _]. exact HQ. Qed.

Lemma preserves_blocked {A : Type} : preserves D Q (@blocked D A).
Proof. intros s r s' tr HQ [= _ <- _]. exact HQ. Qed.

Lemma preserves_emit (e : event) : preserves D Q (emit e).
Proof. intros s r s' tr HQ [= _ <- _]. exact HQ. Qed.

Lemma preserves_lift {A : Type} (a : answer A) : preserves D Q (lift a).
Proof. destruct a; [apply preserves_ret | apply preserves_raise]. Qed.

Lemma preserves_bind {A B : Type} (m : M D A) (f : A -> M D B) :
  preserves D Q m -> (forall a, preserves D Q (f a)) -> preserves D Q (bind m f).
Proof.
  intros Hm Hf s r s' tr HQ. unfold bind.
  destruct (m s) as [[r1 s1] tr1] eqn:Em.
  specialize (Hm _ _ _ _ HQ Em).
  destruct r1 as [a|e|].
  - destruct (f a s1) as [[r2 s2] tr2] eqn:Ef.
    intros [= _ <- _]. exact (Hf a _ _ _ _ Hm Ef).
  - intros [= _ <- _]. exact Hm.
  - intros [= _ <- _]. exact Hm.
Qed.

Lemma preserves_bind_ret {A B : Type} (a : A) (f : A -> M D B) :
  preserves D Q (f a) -> preserves D Q (bind (ret a) f).
Proof.
  intros Hf s r s' tr HQ. unfold bind, ret.
  destruct (f a s) as [[r2 s2] tr2] eqn:Ef.
  intros [= _ <- _]. exact (Hf _ _ _ _ HQ Ef).
Qed.

Lemma preserves_finally {A : Type} (body : M D A) (cleanup : M D unit) :
  preserves D Q body -> preserves D Q cleanup -> preserves D Q (finally body cleanup).
Proof.
  intros Hb Hc s r s' tr HQ. unfold finally.
  destruct (body s) as [[r1 s1] tr1] eqn:Eb.
  specialize (Hb _ _ _ _ HQ Eb).
  destruct (cleanup s1) as [[rc s2] tr2] eqn:Ec.
  specialize (Hc _ _ _ _ Hb Ec).
  destruct r1, rc; intros [= _ <- _]; assumption.
Qed.

Lemma preserves_get_sangaboard : preserves D Q get_sangaboard.
Proof.
  intros s r s' tr HQ. unfold get_sangaboard.
  destruct (_sangaboard s); intros [= _ <- _]; exact HQ.
Qed.

Lemma preserves_get_sangaboard_lock : preserves D Q get_sangaboard_lock.
Proof.
  intros s r s' tr HQ. unfold get_sangaboard_lock.
  destruct (_sangaboard_lock s); intros [= _ <- _]; exact HQ.
Qed.

Lemma preserves_get_sangaboard_kwargs : preserves D Q get_sangaboard_kwargs.
Proof. intros s r s' tr HQ [= _ <- _]. exact HQ. Qed.

Lemma preserves_get_position : preserves D Q get_position.
Proof. intros s r s' tr HQ [= _ <- _]. exact HQ. Qed.

Lemma preserves_get_moving : preserves D Q get_moving.
Proof. intros s r s' tr HQ [= _ <- _]. exact HQ. Qed.

Lemma preserves_set_sangaboard (sb : D) : preserves D Q (set_sangaboard sb).
Proof. intros s r s' tr HQ [= _ <- _]. exact HQ. Qed.

Lemma preserves_set_sangaboard_lock (l : RLock) :
  preserves D Q (set_sangaboard_lock l).
Proof. intros s r s' tr HQ [= _ <- _]. exact HQ. Qed.

Lemma preserves_set_moving (b : bool) : preserves D Q (set_moving b).
Proof. intros s r s' tr HQ [= _ <- _]. exact HQ. Qed.

(** Assigning the position is the one place where [Q] has to be shown. *)
Lemma preserves_set_position (p : dict Z) : Q p -> preserves D Q (set_position p).
Proof. intros Hp s r s' tr _ [= _ <- _]. exact Hp. Qed.

Lemma preserves_getitem (d : dict Z) (k : string) : preserves D Q (getitem d k).
Proof.
  unfold getitem.
  destruct (dict_get k d); [apply preserves_ret | apply preserves_raise].
Qed.

End Preservation.

Ltac preserve_step :=
  first
    [ apply preserves_bind
    | apply preserves_finally
    | apply preserves_ret
    | apply preserves_raise
    | apply preserves_blocked
    | apply preserves_emit
    | apply preserves_lift
    | apply preserves_get_sangaboard
    | apply preserves_get_sangaboard_lock
    | apply preserves_get_sangaboard_kwargs
    | apply preserves_get_position
    | apply preserves_get_moving
    | apply preserves_set_sangaboard
    | apply preserves_set_sangaboard_lock
    | apply preserves_set_moving
    | apply preserves_getitem
    | match goal with
      | |- forall _, _ => intro
      | |- preserves _ _ (match ?x with _ => _ end) => destruct x
      end ].

Section PositionKeys.

Variable D : Type.
Variable drv : Driver D.

Lemma acquire_keeps_keys (t : tid) :
  preserves D keys_in_axis_order (acquire t).
Proof. unfold acquire. repeat preserve_step. Qed.

Lemma release_keeps_keys (t : tid) :
  preserves D keys_in_axis_order (release t).
Proof. unfold release. repeat preserve_step. Qed.

Lemma call_keeps_keys {A : Type} (ev : event) (f : D -> answer A * D) :
  preserves D keys_in_axis_order (call ev f).
Proof. unfold call. repeat preserve_step. Qed.

Lemma sangaboard_keeps_keys {A : Type} (t : tid) (body : M D A) :
  preserves D keys_in_axis_order body ->
  preserves D keys_in_axis_order (sangaboard t body).
Proof.
  intros Hbody. unfold sangaboard.
  apply preserves_bind; [apply acquire_keeps_keys | intros _].
  apply preserves_finally; [ | apply release_keeps_keys].
  apply preserves_bind; [apply preserves_get_sangaboard | intros _].
  exact Hbody.
Qed.

(** The resync writes the zip of the axis names with what was read. *)
Lemma update_position_keeps_keys (t : tid) :
  preserves D keys_in_axis_order (update_position drv t).
Proof.
  unfold update_position, axis_names, read_position.
  apply sangaboard_keeps_keys.
  apply preserves_bind_ret.
  apply preserves_bind; [apply call_keeps_keys | intros coords].
  apply preserves_set_position.
  rewrite dict_of_zip_axis_names. apply keys_in_axis_order_zip.
Qed.

Lemma move_relative_keeps_keys (t : tid) (kwargs : dict Z) :
  preserves D keys_in_axis_order (move_relative drv t kwargs).
Proof.
  unfold move_relative, axis_names, move_rel.
  apply sangaboard_keeps_keys.
  apply preserves_bind; [apply preserves_set_moving | intros _].
  apply preserves_bind_ret.
  apply preserves_bind; [apply call_keeps_keys | intros _].
  apply preserves_bind; [apply preserves_set_moving | intros _].
  apply update_position_keeps_keys.
Qed.

Lemma displacement_keeps_keys (keys : list string) :
  forall acc : dict Z, preserves D keys_in_axis_order (displacement keys acc).
Proof.
  induction keys as [|k keys IH]; intros acc; cbn [displacement].
  - apply preserves_ret.
  - repeat preserve_step. apply IH.
Qed.

Lemma move_absolute_keeps_keys (t : tid) (kwargs : dict Z) :
  preserves D keys_in_axis_order (move_absolute drv t kwargs).
Proof.
  unfold move_absolute.
  apply sangaboard_keeps_keys.
  apply preserves_bind; [apply update_position_keeps_keys | intros _].
  apply preserves_bind; [apply displacement_keeps_keys | intros disp].
  apply move_relative_keeps_keys.
Qed.

Lemma abort_move_keeps_keys :
  preserves D keys_in_axis_order (abort_move drv).
Proof.
  unfold abort_move, ser_write.
  apply preserves_bind; [apply preserves_get_moving | intros [|]].
  - apply preserves_bind; [apply preserves_emit | intros _].
    apply preserves_bind; [apply preserves_get_sangaboard | intros sb].
    apply call_keeps_keys.
  - apply preserves_raise.
Qed.

Lemma enter_keeps_keys (t : tid) :
  preserves D keys_in_axis_order (__enter__ drv t).
Proof.
  unfold __enter__.
  do 5 (apply preserves_bind; [repeat preserve_step | intro]).
  apply update_position_keeps_keys.
Qed.

Lemma exit_keeps_keys (t : tid) :
  preserves D keys_in_axis_order (__exit__ drv t).
Proof.
  unfold __exit__, close.
  apply sangaboard_keeps_keys, call_keeps_keys.
Qed.

(** Every call a host can make keeps the keys of the cached position an
    initial segment of the axis names. *)
Lemma perform_keeps_keys (t : tid) (a : action) :
  preserves D keys_in_axis_order (perform drv t a).
Proof.
  destruct a; cbn [perform].
  - apply enter_keeps_keys.
  - apply exit_keeps_keys.
  - unfold void, axis_names. repeat preserve_step.
  - unfold void. repeat preserve_step.
  - unfold void. repeat preserve_step.
  - unfold void, thing_state. repeat preserve_step.
  - apply update_position_keeps_keys.
  - apply move_relative_keeps_keys.
  - apply move_absolute_keeps_keys.
  - apply abort_move_keeps_keys.
Qed.

Lemma reachable_keys_in_axis_order (s : SangaboardThing D) :
  reachable drv s -> keys_in_axis_order (position s).
Proof.
  induction 1 as [port kwargs | s t a r s' tr _ IH Hcall].
  - exists 0%nat. reflexivity.
  - exact (perform_keeps_keys t a s r s' tr IH Hcall).
Qed.

(** A resync that can take the lock and whose read returns [coords]. *)
Lemma update_position_reads (t : tid) (s : SangaboardThing D) (sb sb' : D)
      (coords : list Z) :
  ready t s = true ->
  _sangaboard s = Some sb ->
  sb_position drv sb = (Returns coords, sb') ->
  exists s' tr,
    update_position drv t s = (Ok tt, s', tr) /\
    position s' = zip _axis_names coords /\
    _sangaboard s' = Some sb' /\
    _sangaboard_lock s' = _sangaboard_lock s /\
    moving s' = moving s /\
    hardware tr = [EvReadPosition].
Proof.
  intros Hready Hsb Hread.
  state_cases s t; cbn in Hready, Hsb; rewrite ?E in Hready;
    try discriminate.
  all: injection Hsb as ->.
  all: simp_py; rewrite Hread; simp_py.
  all: do 2 eexists; split; [reflexivity | ].
  all: cbn [position _sangaboard _sangaboard_lock moving].
  all: rewrite dict_of_zip_axis_names; repeat split.
Qed.

End PositionKeys.

(** C8. The position starts as the empty mapping; every call keeps its
    keys an initial segment of [_axis_names], so on every reachable object
    the keys are axis names in axis order; and a resync whose read
    reports [coords] stores the zip of the axis names with [coords]
    without raising, so it holds [min 3 (len coords)] entries and a short
    report leaves the later axes out. *)
Theorem position_keys_follow_axis_names :
  (forall (D : Type) (port : pyval) (kwargs : dict pyval),
      position (@__init__ D port kwargs) = []) /\
  (forall (D : Type) (drv : Driver D) (t : tid) (a : action)
          (s : SangaboardThing D) r s' tr,
      keys_in_axis_order (position s) ->
      perform drv t a s = (r, s', tr) ->
      keys_in_axis_order (position s')) /\
  (forall (D : Type) (drv : Driver D) (s : SangaboardThing D),
      reachable drv s ->
      keys_in_axis_order (position s) /\
      incl (dict_keys (position s)) _axis_names) /\
  (forall (D : Type) (drv : Driver D) (t : tid) (s : SangaboardThing D)
          (sb sb' : D) (coords : list Z),
      ready t s = true ->
      _sangaboard s = Some sb ->
      sb_position drv sb = (Returns coords, sb') ->
      exists s' tr,
        update_position drv t s = (Ok tt, s', tr) /\
        position s' = zip _axis_names coords /\
        dict_keys (position s') = firstn (List.length coords) _axis_names /\
        List.length (position s') =
        Nat.min (List.length _axis_names) (List.length coords)).
Proof.
  split; [reflexivity | split; [ | split]].
  - intros D drv t a s r s' tr. apply perform_keeps_keys.
  - intros D drv s Hreach.
    pose proof (reachable_keys_in_axis_order D drv s Hreach) as Hkeys.
    split; [exact Hkeys | now apply keys_in_axis_order_incl].
  - intros D drv t s sb sb' coords Hready Hsb Hread.
    destruct (update_position_reads D drv t s sb sb' coords Hready Hsb Hread)
      as (s' & tr & Hrun & Hpos & _).
    exists s', tr. split; [exact Hrun | split; [exact Hpos | ]].
    rewrite Hpos. split; [apply zip_keys | ].
    unfold zip. apply length_combine.
Qed.

Lemma position_keys_follow_axis_names_witness :
  reachable (Mock.short 2 [1; 2; 3]) (Mock.started (Mock.short 2 [1; 2; 3])) /\
  position (Mock.started (Mock.short 2 [1; 2; 3])) = [("x", 1); ("y", 2)] /\
  keys_in_axis_order (position (Mock.started (Mock.short 2 [1; 2; 3]))) /\
  exists s' tr,
    update_position (Mock.short 2 [1; 2; 3]) 0%nat
      (Mock.started (Mock.short 2 [1; 2; 3])) = (Ok tt, s', tr) /\
    position s' = zip _axis_names [1; 2].
Proof.
  assert (Hreach : reachable (Mock.short 2 [1; 2; 3])
                     (Mock.started (Mock.short 2 [1; 2; 3]))).
  { eapply (reach_call (Mock.short 2 [1; 2; 3]) (__init__ PyNone []) 0%nat Enter).
    - apply reach_init.
    - vm_compute. reflexivity. }
  split; [exact Hreach | split; [reflexivity | split]].
  - exact (proj1 (proj1 (proj2 (proj2 position_keys_follow_axis_names))
                    (list Z) (Mock.short 2 [1; 2; 3])
                    (Mock.started (Mock.short 2 [1; 2; 3])) Hreach)).
  - destruct (proj2 (proj2 (proj2 position_keys_follow_axis_names))
                (list Z) (Mock.short 2 [1; 2; 3]) 0%nat
                (Mock.started (Mock.short 2 [1; 2; 3]))
                [1; 2; 3] [1; 2; 3] [1; 2] eq_refl eq_refl eq_refl)
      as (s' & tr & Hrun & Hpos & _).
    exists s', tr. split; [exact Hrun | exact Hpos].
Defined.

(* ===================================================================== *)
(** ** Calls before [__enter__] and after [__exit__] *)
(* ===================================================================== *)







(* ===================================================================== *)
(** ** [moving] is only ever set on a started controller *)
(* ===================================================================== *)

Lemma perform_keeps_driver
      (D : Type) (drv : Driver D) (t : tid) (a : action)
      (s : SangaboardThing D) r s' tr :
  (moving s = true -> _sangaboard s <> None) ->
  perform drv t a s = (r, s', tr) ->
  moving s' = true -> _sangaboard s' <> None.
Proof.
  intros Hinv.
  assert (Hcases : _sangaboard s <> None \/
                   (_sangaboard s = None /\ moving s = false)).
  { destruct (_sangaboard s); [left; discriminate | right].
    split; [reflexivity | ].
    destruct (moving s); [exfalso; now apply Hinv | reflexivity]. }
  clear Hinv.
  destruct a; cbn [perform];
    try (unfold move_absolute; generalize (dict_keys kwargs) as keys; intros keys).
  all: state_cases s t; cbn in Hcases.
  all: try (destruct Hcases as [Hsome | [_ ->]]; [exfalso; now apply Hsome | ]).
  all: try clear Hcases.
  all: run_py.
  all: try (destruct keys as [|k keys];
            [ | match goal with
                | |- context [displacement (k :: keys) ?acc ?st] =>
                    let e := fresh "e" in
                    let He := fresh "He" in
                    destruct (displacement_nonempty (k :: keys) acc st
                                ltac:(discriminate)) as [e He];
                    rewrite He
                end ]).
  all: run_py.
  all: try (destruct moving0).
  all: run_py.
  all: intros Hrun; inversion Hrun; subst; clear Hrun.
  all: cbn [moving _sangaboard]; intros Hm; discriminate.
Qed.

(** X20. On every object a host can see, [moving] being set means the
    driver object exists, so the raw write of [abort_move] has its target. *)
Lemma reachable_moving_started
      (D : Type) (drv : Driver D) (s : SangaboardThing D) :
  reachable drv s -> moving s = true -> _sangaboard s <> None.
Proof.
  induction 1 as [port kwargs | s t a r s' tr _ IH Hcall].
  - discriminate.
  - exact (perform_keeps_driver D drv t a s r s' tr IH Hcall).
Qed.

(* ===================================================================== *)
(** ** More about dicts *)
(* ===================================================================== *)

Lemma dict_get_set_same {V : Type} (k : string) (v : V) (d : dict V) :
  dict_get k (dict_set k v d) = Some v.
Proof.
  induction d as [|[k' v'] d IH]; cbn.
  - now rewrite String.eqb_refl.
  - destruct (String.eqb k k') eqn:E; cbn; rewrite ?E, ?String.eqb_refl;
      [reflexivity | exact IH].
Qed.

Lemma dict_get_set_other {V : Type} (k k' : string) (v : V) (d : dict V) :
  k' <> k -> dict_get k' (dict_set k v d) = dict_get k' d.
Proof.
  intros Hne. apply String.eqb_neq in Hne.
  induction d as [|[k0 v0] d IH]; cbn.
  - now rewrite Hne.
  - destruct (String.eqb k k0) eqn:E; cbn.
    + apply String.eqb_eq in E. subst k0. now rewrite Hne.
    + now rewrite IH.
Qed.

(** Looking up the [i]-th key of a zip gives the [i]-th value, when the
    keys are distinct. *)
Lemma dict_get_zip (xs : list string) :
  NoDup xs ->
  forall (ys : list Z) (i : nat) (k : string),
    nth_error xs i = Some k ->
    dict_get k (zip xs ys) = nth_error ys i.
Proof.
  unfold zip.
  induction 1 as [|x xs Hnotin Hnd IH]; intros ys i k Hk.
  - destruct i; discriminate.
  - destruct ys as [|y ys].
    + cbn. now destruct i.
    + destruct i as [|i]; cbn in Hk |- *.
      * injection Hk as ->. now rewrite String.eqb_refl.
      * destruct (String.eqb_spec k x) as [->|_].
        -- exfalso. apply Hnotin. eapply nth_error_In. exact Hk.
        -- now apply IH.
Qed.

(* ===================================================================== *)
(** ** [__init__] and [__enter__] *)
(* ===================================================================== *)

(** X1. [__enter__] on a fresh object calls the driver's constructor
    exactly once, with the keyword arguments [__init__] was given and
    with [port] under the key ["port"]. *)
Theorem enter_passes_port_and_kwargs
        (D : Type) (drv : Driver D) (t : tid)
        (port : pyval) (kwargs : dict pyval) :
  exists kw : dict pyval,
    opens (snd (__enter__ drv t (__init__ port kwargs))) = [EvOpen kw] /\
    dict_get "port" kw = Some port /\
    forall k : string, k <> "port" -> dict_get k kw = dict_get k kwargs.
Proof.
  exists (dict_set "port" port kwargs).
  split; [ | split].
  - unfold __init__. run_py; reflexivity.
  - apply dict_get_set_same.
  - intros k Hk. now apply dict_get_set_other.
Qed.

(** X2. When the driver's constructor raises, [__enter__] raises the same
    exception and leaves the object exactly as it was: no driver object
    and no lock are assigned, and no position is read. *)
Theorem enter_constructor_raises
        (D : Type) (drv : Driver D) (t : tid) (s : SangaboardThing D)
        (e : exn) :
  Sangaboard drv (sangaboard_kwargs s) = Raises e ->
  __enter__ drv t s = (Raise e, s, [EvOpen (sangaboard_kwargs s)]).
Proof.
  intros Hopen. destruct s as [kws sb l p m]. cbn in Hopen.
  simp_py. rewrite Hopen. simp_py. reflexivity.
Qed.

Lemma enter_constructor_raises_witness :
  __enter__ Stub.refusing 0%nat (__init__ (PyStr "COM3") []) =
  (Raise (DriverError "no such port"), __init__ (PyStr "COM3") [],
   [EvOpen [("port", PyStr "COM3")]]).
Proof.
  exact (enter_constructor_raises unit Stub.refusing 0%nat
           (__init__ (PyStr "COM3") []) (DriverError "no such port") eq_refl).
Defined.

(** X3. When the constructor returns and the first position read reports
    [coords], [__enter__] returns normally whatever the object was before,
    without waiting for any lock: the new driver object is assigned, the
    lock is a fresh free one, the position is the zip of the axis names
    with [coords], and [moving] is untouched. The hardware saw the
    constructor call and one position read. *)
Theorem enter_starts
        (D : Type) (drv : Driver D) (t : tid) (s : SangaboardThing D)
        (sb sb' : D) (coords : list Z) :
  Sangaboard drv (sangaboard_kwargs s) = Returns sb ->
  sb_position drv sb = (Returns coords, sb') ->
  __enter__ drv t s =
  (Ok tt,
   {| sangaboard_kwargs := sangaboard_kwargs s;
      _sangaboard := Some sb';
      _sangaboard_lock := Some Unlocked;
      position := zip _axis_names coords;
      moving := moving s |},
   [EvOpen (sangaboard_kwargs s); EvAcquire t; EvReadPosition; EvRelease t]).
Proof.
  intros Hopen Hread. destruct s as [kws sb0 l p m]. cbn in Hopen.
  simp_py. rewrite Hopen. simp_py. rewrite Hread. simp_py.
  rewrite dict_of_zip_axis_names. reflexivity.
Qed.

Lemma enter_starts_witness :
  __enter__ (Mock.ideal [4; 5; 6]) 2%nat
    (Mock.in_flight (Mock.ideal [0; 0; 0]) 1%nat) =
  (Ok tt,
   {| sangaboard_kwargs := [("port", PyNone)];
      _sangaboard := Some [4; 5; 6];
      _sangaboard_lock := Some Unlocked;
      position := [("x", 4); ("y", 5); ("z", 6)];
      moving := true |},
   [EvOpen [("port", PyNone)]; EvAcquire 2%nat; EvReadPosition;
    EvRelease 2%nat]).
Proof.
  exact (enter_starts (list Z) (Mock.ideal [4; 5; 6]) 2%nat
           (Mock.in_flight (Mock.ideal [0; 0; 0]) 1%nat)
           [4; 5; 6] [4; 5; 6] [4; 5; 6] eq_refl eq_refl).
Defined.

(** X4. When the constructor returns but the first position read raises,
    [__enter__] raises that exception with the object half started: the
    driver object and a free lock are assigned, the position is what it
    was, and the driver is not closed. *)
Theorem enter_read_raises
        (D : Type) (drv : Driver D) (t : tid) (s : SangaboardThing D)
        (sb sb' : D) (e : exn) :
  Sangaboard drv (sangaboard_kwargs s) = Returns sb ->
  sb_position drv sb = (Raises e, sb') ->
  __enter__ drv t s =
  (Raise e,
   {| sangaboard_kwargs := sangaboard_kwargs s;
      _sangaboard := Some sb';
      _sangaboard_lock := Some Unlocked;
      position := position s;
      moving := moving s |},
   [EvOpen (sangaboard_kwargs s); EvAcquire t; EvReadPosition; EvRelease t]).
Proof.
  intros Hopen Hread. destruct s as [kws sb0 l p m]. cbn in Hopen.
  simp_py. rewrite Hopen. simp_py. rewrite Hread. simp_py.
  reflexivity.
Qed.

Lemma enter_read_raises_witness :
  __enter__ Stub.mute 0%nat (__init__ PyNone []) =
  (Raise (DriverError "no reply"),
   {| sangaboard_kwargs := [("port", PyNone)];
      _sangaboard := Some tt;
      _sangaboard_lock := Some Unlocked;
      position := [];
      moving := false |},
   [EvOpen [("port", PyNone)]; EvAcquire 0%nat; EvReadPosition;
    EvRelease 0%nat]).
Proof.
  exact (enter_read_raises unit Stub.mute 0%nat (__init__ PyNone []) tt tt
           (DriverError "no reply") eq_refl eq_refl).
Defined.

(* ===================================================================== *)
(** ** The lock discipline of every call *)
(* ===================================================================== *)

(** The comprehension of [move_absolute] over an unknown list of keys:
    it is empty, or it raises at the first key. *)
Ltac comprehension :=
  match goal with
  | |- context [displacement ?ks ?acc ?st] =>
      is_var ks;
      let k := fresh "k" in
      let ks' := fresh "keys" in
      destruct ks as [|k ks'];
      [ | let e := fresh "e" in
          let He := fresh "He" in
          destruct (displacement_nonempty (k :: ks') acc st
                      ltac:(discriminate)) as [e He];
          rewrite He ]
  end.

Ltac flag_case :=
  match goal with
  | |- context [if ?b then _ else _] => is_var b; destruct b
  end.

Ltac run_all :=
  run_py; repeat (first [comprehension | flag_case]; run_py).

(** Splits a goal about [perform] into every call and every shape of the
    object, and runs each to the end. *)
Ltac every_call a s t :=
  destruct a; cbn [perform];
  try (unfold move_absolute;
       match goal with
       | |- context [dict_keys ?kw] =>
           generalize (dict_keys kw); intro
       end);
  state_cases s t; run_all.

Lemma perform_lock_frame
      (D : Type) (drv : Driver D) (t : tid) (a : action)
      (s : SangaboardThing D) r s' tr :
  a <> Enter ->
  perform drv t a s = (r, s', tr) ->
  _sangaboard_lock s' = _sangaboard_lock s /\
  sangaboard_kwargs s' = sangaboard_kwargs s.
Proof.
  intros Ha. every_call a s t; try congruence.
  all: intros Hrun; inversion Hrun; subst; clear Hrun.
  all: split; reflexivity.
Qed.

Lemma enter_leaves_lock_idle
      (D : Type) (drv : Driver D) (t : tid) (s : SangaboardThing D) r s' tr :
  lock_idle s -> __enter__ drv t s = (r, s', tr) -> lock_idle s'.
Proof.
  intros Hidle. unfold lock_idle in *.
  destruct s as [kws sb l p m]; cbn in Hidle.
  run_py; intros Hrun; inversion Hrun; subst; clear Hrun; cbn; auto.
Qed.

(** X5. Every call other than [__enter__] leaves the lock exactly as it
    found it, at the same owner and depth, however the call ends: on
    return, on any exception of the driver or of the method itself, and
    when it has to wait. It never touches the constructor arguments and
    never assigns or removes the driver object. *)
Theorem calls_leave_lock_as_found
        (D : Type) (drv : Driver D) (t : tid) (a : action)
        (s : SangaboardThing D) r s' tr :
  a <> Enter ->
  perform drv t a s = (r, s', tr) ->
  _sangaboard_lock s' = _sangaboard_lock s /\
  sangaboard_kwargs s' = sangaboard_kwargs s /\
  (_sangaboard s' = None <-> _sangaboard s = None).
Proof.
  intros Ha. every_call a s t; try congruence.
  all: intros Hrun; inversion Hrun; subst; clear Hrun.
  all: cbn [_sangaboard_lock sangaboard_kwargs _sangaboard].
  all: repeat split; intros; congruence.
Qed.

Lemma calls_leave_lock_as_found_witness :
  _sangaboard_lock
    (snd (fst (perform (Mock.faulty [0; 0; 0]) 1%nat (MoveRelative [("x", 1)])
                 (Mock.in_flight (Mock.faulty [0; 0; 0]) 1%nat)))) =
  Some (Locked 1%nat 0%nat).
Proof.
  destruct (perform (Mock.faulty [0; 0; 0]) 1%nat (MoveRelative [("x", 1)])
              (Mock.in_flight (Mock.faulty [0; 0; 0]) 1%nat))
    as [[r s'] tr] eqn:Hrun.
  refine (eq_trans
            (proj1 (calls_leave_lock_as_found (list Z) (Mock.faulty [0; 0; 0])
                      1%nat (MoveRelative [("x", 1)])
                      (Mock.in_flight (Mock.faulty [0; 0; 0]) 1%nat)
                      r s' tr _ Hrun)) _).
  - discriminate.
  - reflexivity.
Defined.

(** X6. Between calls the lock is never held: on every object a host can
    see, the lock does not exist yet or is free. No sequence of calls,
    failing or not, leaves the controller locked. *)
Theorem reachable_lock_idle
        (D : Type) (drv : Driver D) (s : SangaboardThing D) :
  reachable drv s -> lock_idle s.
Proof.
  induction 1 as [port kwargs | s t a r s' tr _ IH Hcall].
  - now left.
  - assert (Hframe : a <> Enter -> lock_idle s').
    { intros Ha.
      destruct (perform_lock_frame D drv t a s r s' tr Ha Hcall) as [Hl _].
      unfold lock_idle. rewrite Hl. exact IH. }
    destruct a; try (apply Hframe; discriminate).
    exact (enter_leaves_lock_idle D drv t s r s' tr IH Hcall).
Qed.

Lemma reachable_lock_idle_witness :
  lock_idle
    (snd (fst (perform (Mock.faulty [0; 0; 0]) 0%nat (MoveRelative [("x", 1)])
                 (Mock.started (Mock.faulty [0; 0; 0]))))).
Proof.
  apply (reachable_lock_idle (list Z) (Mock.faulty [0; 0; 0])).
  eapply reach_call with (s := Mock.started (Mock.faulty [0; 0; 0]))
                         (t := 0%nat) (a := MoveRelative [("x", 1)]).
  - eapply reach_call with (s := __init__ PyNone []) (t := 0%nat) (a := Enter).
    + apply reach_init.
    + vm_compute. reflexivity.
  - vm_compute. reflexivity.
Defined.

(** X7. A call waits exactly when it is one of the four that enter
    [with self.sangaboard()] and another thread holds the lock; a call
    that waits has done nothing yet. The property reads, [abort_move] and
    [__enter__] never wait. *)
Theorem calls_wait_exactly_for_foreign_lock
        (D : Type) (drv : Driver D) (t : tid) (a : action)
        (s : SangaboardThing D) :
  (forall s' tr,
      perform drv t a s = (Blocked, s', tr) ->
      takes_lock a = true /\
      (exists o n, _sangaboard_lock s = Some (Locked o n) /\ o <> t) /\
      s' = s /\ tr = []) /\
  (forall o n,
      takes_lock a = true ->
      _sangaboard_lock s = Some (Locked o n) ->
      o <> t ->
      perform drv t a s = (Blocked, s, [])).
Proof.
  split.
  - intros s' tr. every_call a s t.
    all: intros Hrun; inversion Hrun; subst; clear Hrun.
    all: repeat split.
    all: match goal with
         | E : Nat.eqb ?o _ = false |- _ =>
             exists o; eexists; split; [reflexivity | now apply Nat.eqb_neq]
         end.
  - intros o n Htakes Hlock Hne. apply Nat.eqb_neq in Hne.
    destruct s as [kws sb l p m]. cbn in Hlock. subst l.
    destruct a; try discriminate; cbn [perform]; run_py; reflexivity.
Qed.

Lemma calls_wait_exactly_for_foreign_lock_witness :
  perform (Mock.ideal [0; 0; 0]) 2%nat (MoveAbsolute [])
    (Mock.in_flight (Mock.ideal [0; 0; 0]) 1%nat) =
  (Blocked, Mock.in_flight (Mock.ideal [0; 0; 0]) 1%nat, []).
Proof.
  refine (proj2 (calls_wait_exactly_for_foreign_lock (list Z)
                   (Mock.ideal [0; 0; 0]) 2%nat (MoveAbsolute [])
                   (Mock.in_flight (Mock.ideal [0; 0; 0]) 1%nat))
                1%nat 0%nat eq_refl eq_refl _).
  discriminate.
Defined.

(** X8. Every position read, [move_rel] and [close] a call makes happens
    while the calling thread holds the lock, with one exception: the raw
    write of [abort_move], which is made with no lock taken. *)
Theorem driver_calls_hold_lock
        (D : Type) (drv : Driver D) (t : tid) (s : SangaboardThing D) :
  (forall (a : action) r s' tr,
      a <> AbortMove ->
      perform drv t a s = (r, s', tr) ->
      guarded 0 tr = true) /\
  (forall sb : D,
      moving s = true ->
      _sangaboard s = Some sb ->
      guarded 0 (snd (perform drv t AbortMove s)) = false).
Proof.
  split.
  - intros a r s' tr Ha. every_call a s t; try congruence.
    all: intros Hrun; inversion Hrun; subst; clear Hrun.
    all: reflexivity.
  - intros sb Hmoving Hsb.
    destruct s as [kws sb0 l p m]. cbn in Hmoving, Hsb. subst m sb0.
    cbn [perform]. run_py; reflexivity.
Qed.

Lemma driver_calls_hold_lock_witness :
  guarded 0
    (snd (perform (Mock.ideal [0; 0; 0]) 0%nat (MoveAbsolute [])
            (Mock.started (Mock.ideal [0; 0; 0])))) = true /\
  guarded 0
    (snd (perform (Mock.ideal [0; 0; 0]) 2%nat AbortMove
            (Mock.in_flight (Mock.ideal [0; 0; 0]) 1%nat))) = false.
Proof.
  split.
  - destruct (perform (Mock.ideal [0; 0; 0]) 0%nat (MoveAbsolute [])
                (Mock.started (Mock.ideal [0; 0; 0]))) as [[r s'] tr] eqn:Hrun.
    refine (proj1 (driver_calls_hold_lock (list Z) (Mock.ideal [0; 0; 0]) 0%nat
                     (Mock.started (Mock.ideal [0; 0; 0])))
                  (MoveAbsolute []) r s' tr _ Hrun).
    discriminate.
  - exact (proj2 (driver_calls_hold_lock (list Z) (Mock.ideal [0; 0; 0]) 2%nat
                    (Mock.in_flight (Mock.ideal [0; 0; 0]) 1%nat))
                 [0; 0; 0] eq_refl eq_refl).
Defined.

(* ===================================================================== *)
(** ** Failures of the driver during a move or a resync *)
(* ===================================================================== *)

Lemma move_relative_driver_raises_witness :
  exists s' tr,
    move_relative (Mock.faulty [3; 0; 0]) 0%nat [("y", 2)]
      (Mock.started (Mock.faulty [3; 0; 0])) =
    (Raise (DriverError "move failed"), s', tr) /\
    moving s' = true /\
    _sangaboard_lock s' = Some Unlocked /\
    position s' = [("x", 3); ("y", 0); ("z", 0)].
Proof.
  exact (move_relative_driver_raises (list Z) (Mock.faulty [3; 0; 0]) 0%nat
           [("y", 2)] (Mock.started (Mock.faulty [3; 0; 0]))
           [3; 0; 0] [3; 0; 0] (DriverError "move failed")
           eq_refl eq_refl eq_refl).
Defined.

(** X10. When the move itself returns but the position read after it
    raises, [move_relative] raises that exception with [moving] false and
    the lock released; the cached position is the one from before the
    move, although the driver has carried the move out. *)
Theorem move_relative_resync_raises
        (D : Type) (drv : Driver D) (t : tid) (kwargs : dict Z)
        (s : SangaboardThing D) (sb sb1 sb2 : D) (e : exn) :
  ready t s = true ->
  _sangaboard s = Some sb ->
  sb_move_rel drv (map (fun k => dict_get_default k 0 kwargs) _axis_names) sb
  = (Returns tt, sb1) ->
  sb_position drv sb1 = (Raises e, sb2) ->
  exists s' tr,
    move_relative drv t kwargs s = (Raise e, s', tr) /\
    moving s' = false /\
    position s' = position s /\
    _sangaboard s' = Some sb2 /\
    _sangaboard_lock s' = _sangaboard_lock s /\
    hardware tr =
    [EvMoveRel (map (fun k => dict_get_default k 0 kwargs) _axis_names);
     EvReadPosition].
Proof.
  intros Hready Hsb Hmove Hread.
  state_cases s t; cbn in Hready, Hsb; rewrite ?E in Hready;
    try discriminate.
  all: injection Hsb as ->.
  all: simp_py; rewrite Hmove; simp_py; rewrite Hread; simp_py.
  all: do 2 eexists; split; [reflexivity | repeat split].
Qed.

Lemma move_relative_resync_raises_witness :
  exists s' tr,
    move_relative (Stub.fading [0; 0; 0]) 0%nat [("x", 7)]
      (Mock.started (Stub.fading [0; 0; 0])) =
    (Raise (DriverError "no reply"), s', tr) /\
    moving s' = false /\
    position s' = [("x", 0); ("y", 0); ("z", 0)] /\
    _sangaboard s' = Some ([7; 0; 0], false).
Proof.
  destruct (move_relative_resync_raises (list Z * bool) (Stub.fading [0; 0; 0])
              0%nat [("x", 7)] (Mock.started (Stub.fading [0; 0; 0]))
              ([0; 0; 0], true) ([7; 0; 0], false) ([7; 0; 0], false)
              (DriverError "no reply") eq_refl eq_refl eq_refl eq_refl)
    as (s' & tr & Hrun & Hmov & Hpos & Hsb & _).
  exists s', tr. repeat split; assumption.
Defined.

(** X11. When the position read raises, [update_position] raises that
    exception with the lock released; the cached position and [moving]
    are what they were. *)
Theorem update_position_read_raises
        (D : Type) (drv : Driver D) (t : tid) (s : SangaboardThing D)
        (sb sb' : D) (e : exn) :
  ready t s = true ->
  _sangaboard s = Some sb ->
  sb_position drv sb = (Raises e, sb') ->
  exists s',
    update_position drv t s =
    (Raise e, s', [EvAcquire t; EvReadPosition; EvRelease t]) /\
    position s' = position s /\
    moving s' = moving s /\
    _sangaboard s' = Some sb' /\
    _sangaboard_lock s' = _sangaboard_lock s.
Proof.
  intros Hready Hsb Hread.
  state_cases s t; cbn in Hready, Hsb; rewrite ?E in Hready;
    try discriminate.
  all: injection Hsb as ->.
  all: simp_py; rewrite Hread; simp_py.
  all: eexists; split; [reflexivity | repeat split].
Qed.

Lemma update_position_read_raises_witness :
  exists s',
    update_position (Stub.fading [0; 0; 0]) 0%nat
      {| sangaboard_kwargs := [("port", PyNone)];
         _sangaboard := Some ([7; 0; 0], false);
         _sangaboard_lock := Some Unlocked;
         position := [("x", 0); ("y", 0); ("z", 0)];
         moving := false |} =
    (Raise (DriverError "no reply"), s',
     [EvAcquire 0%nat; EvReadPosition; EvRelease 0%nat]) /\
    position s' = [("x", 0); ("y", 0); ("z", 0)].
Proof.
  destruct (update_position_read_raises (list Z * bool) (Stub.fading [0; 0; 0])
              0%nat
              {| sangaboard_kwargs := [("port", PyNone)];
                 _sangaboard := Some ([7; 0; 0], false);
                 _sangaboard_lock := Some Unlocked;
                 position := [("x", 0); ("y", 0); ("z", 0)];
                 moving := false |}
              ([7; 0; 0], false) ([7; 0; 0], false)
              (DriverError "no reply") eq_refl eq_refl eq_refl)
    as (s' & Hrun & Hpos & _).
  exists s'. split; assumption.
Defined.

(** X12. After a resync whose read reported [coords], looking up the
    [i]-th axis name in the position gives the [i]-th coordinate, and an
    axis beyond the end of the report is not a key at all. *)
Theorem update_position_lookup
        (D : Type) (drv : Driver D) (t : tid) (s : SangaboardThing D)
        (sb sb' : D) (coords : list Z) :
  ready t s = true ->
  _sangaboard s = Some sb ->
  sb_position drv sb = (Returns coords, sb') ->
  forall (i : nat) (k : string),
    nth_error _axis_names i = Some k ->
    dict_get k (position (snd (fst (update_position drv t s)))) =
    nth_error coords i.
Proof.
  intros Hready Hsb Hread i k Hk.
  destruct (update_position_reads D drv t s sb sb' coords Hready Hsb Hread)
    as (s' & tr & Hrun & Hpos & _).
  rewrite Hrun. cbn [fst snd]. rewrite Hpos.
  now apply dict_get_zip; [apply _axis_names_nodup | ].
Qed.

Lemma update_position_lookup_witness :
  dict_get "y"
    (position (snd (fst (update_position (Mock.short 2 [1; 2; 3]) 0%nat
                           (Mock.started (Mock.short 2 [1; 2; 3])))))) =
  Some 2 /\
  dict_get "z"
    (position (snd (fst (update_position (Mock.short 2 [1; 2; 3]) 0%nat
                           (Mock.started (Mock.short 2 [1; 2; 3])))))) =
  None.
Proof.
  split.
  - exact (update_position_lookup (list Z) (Mock.short 2 [1; 2; 3]) 0%nat
             (Mock.started (Mock.short 2 [1; 2; 3])) [1; 2; 3] [1; 2; 3] [1; 2]
             eq_refl eq_refl eq_refl 1%nat "y" eq_refl).
  - exact (update_position_lookup (list Z) (Mock.short 2 [1; 2; 3]) 0%nat
             (Mock.started (Mock.short 2 [1; 2; 3])) [1; 2; 3] [1; 2; 3] [1; 2]
             eq_refl eq_refl eq_refl 2%nat "z" eq_refl).
Defined.

(** X13. [move_relative] looks at its keyword arguments only under the
    axis names: two mappings that agree on ["x"], ["y"] and ["z"] give
    the same call in every respect, so a key that is no axis name is
    ignored without any error. *)
Theorem move_relative_ignores_other_keys
        (D : Type) (drv : Driver D) (t : tid) (kw1 kw2 : dict Z)
        (s : SangaboardThing D) :
  (forall k : string, In k _axis_names -> dict_get k kw1 = dict_get k kw2) ->
  move_relative drv t kw1 s = move_relative drv t kw2 s.
Proof.
  intros Hagree.
  assert (Hvec : map (fun k => dict_get_default k 0 kw1) _axis_names =
                 map (fun k => dict_get_default k 0 kw2) _axis_names).
  { apply map_ext_in. intros k Hk. unfold dict_get_default.
    now rewrite (Hagree k Hk). }
  state_cases s t.
  all: simp_py; rewrite ?Hvec; run_py; reflexivity.
Qed.

Lemma move_relative_ignores_other_keys_witness :
  move_relative (Mock.ideal [0; 0; 0]) 0%nat [("x", 1); ("w", 9)]
    (Mock.started (Mock.ideal [0; 0; 0])) =
  move_relative (Mock.ideal [0; 0; 0]) 0%nat [("x", 1)]
    (Mock.started (Mock.ideal [0; 0; 0])).
Proof.
  apply (move_relative_ignores_other_keys (list Z) (Mock.ideal [0; 0; 0]) 0%nat
           [("x", 1); ("w", 9)] [("x", 1)]
           (Mock.started (Mock.ideal [0; 0; 0]))).
  intros k [<-|[<-|[<-|[]]]]; reflexivity.
Defined.

(* ===================================================================== *)
(** ** More about [move_absolute] *)
(* ===================================================================== *)

Lemma move_absolute_nonempty_never_moves_witness :
  fst (fst (move_absolute (Mock.ideal [1; 2; 3]) 0%nat [("y", 0); ("x", 4)]
              (Mock.started (Mock.ideal [1; 2; 3])))) <> Ok tt /\
  moves (snd (move_absolute (Mock.ideal [1; 2; 3]) 0%nat [("y", 0); ("x", 4)]
                (Mock.started (Mock.ideal [1; 2; 3])))) = [].
Proof.
  destruct (move_absolute (Mock.ideal [1; 2; 3]) 0%nat [("y", 0); ("x", 4)]
              (Mock.started (Mock.ideal [1; 2; 3]))) as [[r s'] tr] eqn:Hrun.
  exact (move_absolute_nonempty_never_moves (list Z) (Mock.ideal [1; 2; 3])
           0%nat "y" 0 [("x", 4)] (Mock.started (Mock.ideal [1; 2; 3]))
           r s' tr Hrun).
Defined.



(** X16. [move_absolute] with no keyword arguments is a resync followed
    by a [move_relative] with no keyword arguments: from any object, by
    any thread, the two end the same way, leave the same object and make
    the same driver calls. *)
Theorem move_absolute_empty_is_resync_then_move
        (D : Type) (drv : Driver D) (t : tid) (s : SangaboardThing D) :
  fst (move_absolute drv t [] s) =
  fst (bind (update_position drv t) (fun _ => move_relative drv t []) s) /\
  hardware (snd (move_absolute drv t [] s)) =
  hardware (snd (bind (update_position drv t)
                   (fun _ => move_relative drv t []) s)).
Proof.
  state_cases s t.
  all: run_py; split; reflexivity.
Qed.

(* ===================================================================== *)
(** ** The [moving] flag between calls *)
(* ===================================================================== *)

Lemma reachable_moving_started_witness :
  _sangaboard
    (snd (fst (perform (Mock.faulty [0; 0; 0]) 0%nat (MoveRelative [("x", 1)])
                 (Mock.started (Mock.faulty [0; 0; 0]))))) <> None.
Proof.
  apply (reachable_moving_started (list Z) (Mock.faulty [0; 0; 0])).
  - eapply reach_call with (s := Mock.started (Mock.faulty [0; 0; 0]))
                           (t := 0%nat) (a := MoveRelative [("x", 1)]).
    + eapply reach_call with (s := __init__ PyNone []) (t := 0%nat)
                             (a := Enter).
      * apply reach_init.
      * vm_compute. reflexivity.
    + vm_compute. reflexivity.
  - reflexivity.
Defined.

Lemma perform_keeps_idle
      (D : Type) (drv : Driver D) (t : tid) (a : action)
      (s : SangaboardThing D) r s' tr :
  moves_always_return drv ->
  moving s = false ->
  perform drv t a s = (r, s', tr) ->
  moving s' = false.
Proof.
  intros Hmoves Hidle.
  assert (Hnever : forall v sb e sb',
             sb_move_rel drv v sb = (Raises e, sb') -> False).
  { intros v sb e sb' Hraise. specialize (Hmoves v sb).
    rewrite Hraise in Hmoves. discriminate. }
  destruct s as [kws sb l p m]. cbn in Hidle. subst m.
  destruct a; cbn [perform];
    try (unfold move_absolute;
         match goal with
         | |- context [dict_keys ?kw] => generalize (dict_keys kw); intro
         end).
  all: destruct sb as [sb|]; destruct l as [[|o n]|].
  all: try (destruct (Nat.eqb o t) eqn:E;
            [apply Nat.eqb_eq in E; subst o | ]).
  all: run_all.
  all: intros Hrun; inversion Hrun; subst; clear Hrun.
  all: try reflexivity.
  all: exfalso; eapply Hnever; eassumption.
Qed.

(** X17. With a driver whose [move_rel] always returns, [moving] is false
    on every object a host can see between calls, whatever else fails:
    the flag can only be left set by a move that raised. *)
Theorem reachable_idle_when_moves_return
        (D : Type) (drv : Driver D) (s : SangaboardThing D) :
  moves_always_return drv ->
  reachable drv s ->
  moving s = false.
Proof.
  intros Hmoves.
  induction 1 as [port kwargs | s t a r s' tr _ IH Hcall].
  - reflexivity.
  - exact (perform_keeps_idle D drv t a s r s' tr Hmoves IH Hcall).
Qed.

Lemma reachable_idle_when_moves_return_witness :
  moving
    (snd (fst (perform (Stub.fading [0; 0; 0]) 0%nat (MoveRelative [("x", 1)])
                 (Mock.started (Stub.fading [0; 0; 0]))))) = false.
Proof.
  apply (reachable_idle_when_moves_return (list Z * bool) (Stub.fading [0; 0; 0])).
  - intros v sb. reflexivity.
  - eapply reach_call with (s := Mock.started (Stub.fading [0; 0; 0]))
                           (t := 0%nat) (a := MoveRelative [("x", 1)]).
    + eapply reach_call with (s := __init__ PyNone []) (t := 0%nat)
                             (a := Enter).
      * apply reach_init.
      * vm_compute. reflexivity.
    + vm_compute. reflexivity.
Defined.

(** X18. After a [move_relative] whose driver call raised, the stage is
    idle but [abort_move] does not answer with its conflict error: it
    finds [moving] set and makes its raw write of the stop command. *)
Theorem abort_after_failed_move_writes
        (D : Type) (drv : Driver D) (t : tid) (kwargs : dict Z)
        (s : SangaboardThing D) (sb sb' : D) (e : exn) :
  ready t s = true ->
  _sangaboard s = Some sb ->
  sb_move_rel drv (map (fun k => dict_get_default k 0 kwargs) _axis_names) sb
  = (Raises e, sb') ->
  hardware
    (snd (abort_move drv (snd (fst (move_relative drv t kwargs s))))) =
  [EvSerWrite (encode (String.append "stop" (sb_termination_character drv sb')))].
Proof.
  intros Hready Hsb Hmove.
  state_cases s t; cbn in Hready, Hsb; rewrite ?E in Hready;
    try discriminate.
  all: injection Hsb as ->.
  all: simp_py; rewrite Hmove; run_py; reflexivity.
Qed.

Lemma abort_after_failed_move_writes_witness :
  hardware
    (snd (abort_move (Mock.faulty [0; 0; 0])
            (snd (fst (move_relative (Mock.faulty [0; 0; 0]) 0%nat [("x", 1)]
                         (Mock.started (Mock.faulty [0; 0; 0]))))))) =
  [EvSerWrite (encode (String.append "stop" Mock.newline))].
Proof.
  exact (abort_after_failed_move_writes (list Z) (Mock.faulty [0; 0; 0]) 0%nat
           [("x", 1)] (Mock.started (Mock.faulty [0; 0; 0]))
           [0; 0; 0] [0; 0; 0] (DriverError "move failed")
           eq_refl eq_refl eq_refl).
Defined.

(* ===================================================================== *)
(** ** Relative moves on a board that does as it is told *)
(* ===================================================================== *)

Lemma add_vec_nth (p : list Z) :
  forall (v : list Z) (i : nat) (x d : Z),
    nth_error p i = Some x ->
    nth_error v i = Some d ->
    nth_error (Mock.add_vec p v) i = Some (x + d).
Proof.
  induction p as [|y p IH]; intros [|c v] [|i] x d Hx Hd;
    cbn in *; try discriminate.
  - now injection Hx as ->; injection Hd as ->.
  - now apply IH.
Qed.

Lemma ideal_reports_commanded_displacement (start : list Z) :
  reports_commanded_displacement (Mock.ideal start) (fun d => d).
Proof.
  split.
  - reflexivity.
  - intros v sb. split; [reflexivity | ].
    intros i x d. cbn. apply add_vec_nth.
Qed.

(** X19. On a driver that reports exactly the commanded displacement, a
    [move_relative] returns normally and the cached position of every
    axis the driver reports is its coordinate before the move plus the
    keyword argument of that axis, or plus 0 where there is none. *)
Theorem move_relative_adds_displacement
        (D : Type) (drv : Driver D) (pos : D -> list Z) (t : tid)
        (kwargs : dict Z) (s : SangaboardThing D) (sb : D) :
  reports_commanded_displacement drv pos ->
  ready t s = true ->
  _sangaboard s = Some sb ->
  exists s' tr,
    move_relative drv t kwargs s = (Ok tt, s', tr) /\
    forall (i : nat) (k : string) (x : Z),
      nth_error _axis_names i = Some k ->
      nth_error (pos sb) i = Some x ->
      dict_get k (position s') = Some (x + dict_get_default k 0 kwargs).
Proof.
  intros [Hpos Hmove] Hready Hsb.
  destruct (Hmove (map (fun k => dict_get_default k 0 kwargs) _axis_names) sb)
    as [Hret Hshift].
  destruct (sb_move_rel drv
              (map (fun k => dict_get_default k 0 kwargs) _axis_names) sb)
    as [ans sb1] eqn:Hcall.
  cbn [fst snd] in Hret, Hshift. subst ans.
  state_cases s t; cbn in Hready, Hsb; rewrite ?E in Hready;
    try discriminate.
  all: injection Hsb as ->.
  all: simp_py; rewrite Hcall; simp_py; rewrite (Hpos sb1); simp_py.
  all: do 2 eexists; split; [reflexivity | ].
  all: intros i k x Hk Hx; cbn [position].
  all: rewrite dict_of_zip_axis_names.
  all: rewrite (dict_get_zip _axis_names _axis_names_nodup (pos sb1) i k Hk).
  all: apply Hshift; [exact Hx | ].
  all: rewrite nth_error_map, Hk; reflexivity.
Qed.

Lemma move_relative_adds_displacement_witness :
  exists s' tr,
    move_relative (Mock.ideal [10; 20; 30]) 0%nat [("z", -5)]
      (Mock.started (Mock.ideal [10; 20; 30])) = (Ok tt, s', tr) /\
    dict_get "z" (position s') = Some (30 + -5) /\
    dict_get "x" (position s') = Some (10 + 0).
Proof.
  destruct (move_relative_adds_displacement (list Z) (Mock.ideal [10; 20; 30])
              (fun d => d) 0%nat [("z", -5)]
              (Mock.started (Mock.ideal [10; 20; 30])) [10; 20; 30]
              (ideal_reports_commanded_displacement [10; 20; 30])
              eq_refl eq_refl) as (s' & tr & Hrun & Hentry).
  exists s', tr. split; [exact Hrun | split].
  - exact (Hentry 2%nat "z" 30 eq_refl eq_refl).
  - exact (Hentry 0%nat "x" 10 eq_refl eq_refl).
Defined.
